(** * remootio: the cover entity of [custom_components/remootio/cover.py]

    A shallow embedding of the cover platform of the Remootio integration:
    the entity class [RemootioCover], its two listener classes and the
    platform's [async_setup_entry].

    The file's code is glue between two collaborators it does not own: the
    client library (aioremootio) and the host platform (Home Assistant).
    Both are modelled from outside: every call this file makes on one of
    them is appended to a log, and what the call answers (a value or a
    raised exception) and what it does to the collaborators' own state is
    left to an arbitrary environment. The objects of the three classes
    defined in this file live in a store indexed by object identity. *)

From Stdlib Require Import ZArith String Ascii List DecimalString.
From stdpp Require Import base option gmap strings list fin_maps.

Local Open Scope string_scope.
Local Open Scope list_scope.

(** ** Values and enums of the collaborators *)

Module Enums.

(** [aioremootio.State]: the four members the file names, and any other
    member of the library's enum under its name. *)
Inductive State : Type :=
| CLOSED
| CLOSING
| OPENING
| NO_SENSOR_INSTALLED
| OtherState (name : string).

(** [aioremootio.EventType]: the file names only [LEFT_OPEN]. *)
Inductive EventType : Type :=
| LEFT_OPEN
| OtherEventType (name : string).

#[global] Instance State_eq_dec : EqDecision State.
Proof. solve_decision. Defined.

#[global] Instance EventType_eq_dec : EqDecision EventType.
Proof. solve_decision. Defined.

(** The [name] attribute of an enum member. *)
Definition EventType_name (t : EventType) : string :=
  match t with
  | LEFT_OPEN => "LEFT_OPEN"
  | OtherEventType n => n
  end.

End Enums.
Export Enums.

(** Identity of an object of one of this file's classes. *)
Definition loc : Type := nat.

(** Identity of a [RemootioClient], an object of the client library. *)
Definition handle : Type := nat.

(** The Python values that pass through this file without being looked
    into: configuration values, host-managed attributes, answers of calls. *)
Inductive PyVal : Type :=
| VNone
| VBool (b : bool)
| VInt (z : Z)
| VStr (s : string)
| VClient (h : handle)
| VOpaque (id : nat).   (* any other object, by identity *)

#[global] Instance PyVal_eq_dec : EqDecision PyVal.
Proof. solve_decision. Defined.

(** A raised exception: its class and its argument. *)
Record Exn : Type := mkExn { exn_class : string; exn_arg : string }.

Definition KeyError (key : string) : Exn := mkExn "KeyError" key.
Definition AttributeError (attr : string) : Exn := mkExn "AttributeError" attr.

(** ** Strings *)

(** [str.lower] on the ASCII range (bytes from 128 on are left alone). *)
Definition lower_ascii (c : ascii) : ascii :=
  let n := nat_of_ascii c in
  if (65 <=? n)%nat && (n <=? 90)%nat then ascii_of_nat (n + 32) else c.

Fixpoint lower (s : string) : string :=
  match s with
  | EmptyString => EmptyString
  | String c s' => String (lower_ascii c) (lower s')
  end.

(** [str(n)] for an [int]: the decimal numeral, with a minus sign. *)
Definition str_of_int (z : Z) : string :=
  NilZero.string_of_int (Z.to_int z).

(** ** Constants *)

(** [homeassistant.const] *)
Definition ATTR_ENTITY_ID : string := "entity_id".
Definition ATTR_NAME : string := "name".
Definition CONF_DEVICE_CLASS : string := "device_class".

(** The constants the file imports from the integration's [const] module,
    whose values are not fixed here. *)
Record Const : Type := mkConst {
  ATTR_SERIAL_NUMBER : string;
  CONF_SERIAL_NUMBER : string;
  DOMAIN : string;
  REMOOTIO_CLIENT : string
}.

(** [CoverEntityFeature]: a flag enum of the host. *)
Module CoverEntityFeature.
Definition OPEN : Z := 1.
Definition CLOSE : Z := 2.
End CoverEntityFeature.

(** ** Objects *)

(** [homeassistant.helpers.entity.DeviceInfo], the keys the file sets.
    [identifiers] is a set literal with one pair. *)
Record DeviceInfo : Type := mkDeviceInfo {
  identifiers : list (string * PyVal);
  name : string;
  manufacturer : string;
  model : string;
  sw_version : string
}.

(** An instance of [RemootioCover]: the attributes [__init__] sets. *)
Record RemootioCover : Type := mkRemootioCover {
  _attr_unique_id : PyVal;
  _attr_device_class : PyVal;
  _remootio_client : handle;
  _attr_device_info : DeviceInfo
}.

(** Class attributes of [RemootioCover]. *)
Definition _attr_has_entity_name : bool := true.
Definition _attr_should_poll : bool := false.
Definition _attr_supported_features : Z :=
  Z.lor CoverEntityFeature.OPEN CoverEntityFeature.CLOSE.

(** The objects of the three classes of the file. A listener holds a
    reference to its owner, not a copy of it. *)
Inductive Obj : Type :=
| ORemootioCover (o : RemootioCover)
| ORemootioCoverStateChangeListener (_owner : loc)
| ORemootioCoverEventListener (_owner : loc).

(** [aioremootio.StateChange] and [aioremootio.Event], the subjects handed
    to the listeners. *)
Record StateChange : Type := mkStateChange {
  old_state : State;
  new_state : State
}.

Record Event : Type := mkEvent {
  type : EventType;
  key : PyVal
}.

Module ConfigEntry.
Record t : Type := mk {
  entry_id : string;
  title : string;
  data : gmap string PyVal
}.
End ConfigEntry.

Module HomeAssistant.
(** [hass.data]: per domain, per entry, a dict of shared objects. *)
Record t : Type := mk {
  data : gmap string (gmap string (gmap string PyVal))
}.
End HomeAssistant.

(** Identity of the callback handed to [async_setup_entry]. *)
Definition AddEntitiesCallback : Type := nat.

(** ** Calls on the collaborators *)

Inductive Call : Type :=
(* methods of RemootioClient *)
| add_state_change_listener (client : handle) (listener : loc)
| add_event_listener (client : handle) (listener : loc)
| trigger_state_update (client : handle)
| trigger_open (client : handle)
| trigger_close (client : handle)
(* Listener.__init__, reached through super() *)
| Listener_init (self : loc)
(* methods of the host *)
| async_write_ha_state (entity : loc)
| bus_async_fire (entity : loc) (event_type : string)
    (event_data : gmap string PyVal)
| add_entities (callback : AddEntitiesCallback) (new_entities : list loc)
| as_dict (config_entry : ConfigEntry.t)
| LOGGER_debug (msg : string) (entry : PyVal) (domain entry_id : string)
    (shared : gmap string PyVal).

Inductive Result (A : Type) : Type :=
| Ok (a : A)
| Raise (e : Exn).
Arguments Ok {A} a.
Arguments Raise {A} e.

(** ** The world *)

Section World.

(** [X] is the state of the collaborators: the clients with their
    connections and door states, the host with its registries. *)
Context {X : Type}.

Record World : Type := mkWorld {
  store : gmap loc Obj;   (* the objects of this file's classes *)
  calls : list Call;      (* the calls made so far, oldest first *)
  ext : X
}.

(** What the collaborators do. [respond] answers a call and moves their
    state; the other fields read attributes and properties they own. *)
Record Env : Type := mkEnv {
  respond : Call -> X -> Result PyVal * X;
  RemootioClient_state : X -> handle -> State;
  RemootioClient_api_version : X -> handle -> Z;
  Entity_entity_id : X -> loc -> PyVal;
  Entity_name : X -> loc -> PyVal
}.

(** A computation runs on a world and returns or raises. An [await] is
    not set apart from a plain call: what happens until the coroutine
    resumes is part of how the environment answers the awaited call. *)
Definition M (A : Type) : Type := World -> Result A * World.

#[global] Instance M_ret : MRet M := λ A a w, (Ok a, w).

#[global] Instance M_bind : MBind M := λ A B f m w,
  match m w with
  | (Ok a, w') => f a w'
  | (Raise e, w') => (Raise e, w')
  end.

Definition raise {A : Type} (e : Exn) : M A := λ w, (Raise e, w).

(** Read something the collaborators own. *)
Definition read {A : Type} (f : X -> A) : M A := λ w, (Ok (f (ext w)), w).

(** [d[k]] on a dict. *)
Definition subscript {V : Type} (d : gmap string V) (k : string) : M V :=
  match d !! k with
  | Some v => mret v
  | None => raise (KeyError k)
  end.

(** Create an object: it gets an identity no object of the store has. *)
Definition alloc (o : Obj) : M loc := λ w,
  let l := fresh (dom (store w)) in
  (Ok l, mkWorld (<[l := o]> (store w)) (calls w) (ext w)).

(** Attribute reads on objects of the store. *)
Definition getattr {A : Type} (attr : string) (sel : Obj -> option A)
    (self : loc) : M A := λ w,
  match store w !! self ≫= sel with
  | Some a => (Ok a, w)
  | None => (Raise (AttributeError attr), w)
  end.

Definition as_cover (o : Obj) : option RemootioCover :=
  match o with
  | ORemootioCover c => Some c
  | _ => None
  end.

Definition owner_of (o : Obj) : option loc :=
  match o with
  | ORemootioCoverStateChangeListener l => Some l
  | ORemootioCoverEventListener l => Some l
  | ORemootioCover _ => None
  end.

Context (const : Const) (env : Env).

(** Call a collaborator: the call is logged, the environment answers. *)
Definition call (c : Call) : M PyVal := λ w,
  let '(r, x) := respond env c (ext w) in
  (r, mkWorld (store w) (calls w ++ [c]) x).

(** [Entity.unique_id], the base class's property over [_attr_unique_id]. *)
Definition unique_id (self : loc) : M PyVal :=
  getattr "unique_id" (λ o, _attr_unique_id <$> as_cover o) self.

(** [Entity.entity_id] and [Entity.name]: held by the host. *)
Definition entity_id (self : loc) : M PyVal :=
  read (λ x, Entity_entity_id env x self).

Definition entity_name (self : loc) : M PyVal :=
  read (λ x, Entity_name env x self).

(** [self._remootio_client] *)
Definition remootio_client_of (self : loc) : M handle :=
  getattr "_remootio_client" (λ o, _remootio_client <$> as_cover o) self.

(** [self._owner] *)
Definition owner (self : loc) : M loc := getattr "_owner" owner_of self.

(** [client.state] *)
Definition state (client : handle) : M State :=
  read (λ x, RemootioClient_state env x client).

(** ** class RemootioCover *)

(** [RemootioCover.__init__] (lines 58-75), with the creation of the
    object. Reading [api_version] off anything else than a client raises. *)
Definition RemootioCover_init (unique_id : PyVal) (name : string)
    (device_class : PyVal) (remootio_client : PyVal) : M loc :=
  match remootio_client with
  | VClient client =>
      api_version ← read (λ x, RemootioClient_api_version env x client);
      alloc (ORemootioCover
        {| _attr_unique_id := unique_id;
           _attr_device_class := device_class;
           _remootio_client := client;
           _attr_device_info :=
             {| identifiers := [(DOMAIN const, unique_id)];
                name := name;
                manufacturer := "Assemblabs Ltd";
                model := "Remootio 3";
                sw_version := str_of_int api_version |} |})
  | _ => raise (AttributeError "api_version")
  end.

(** [RemootioCoverStateChangeListener.__init__] (lines 118-121) *)
Definition RemootioCoverStateChangeListener_init (owner : loc) : M loc :=
  self ← alloc (ORemootioCoverStateChangeListener owner);
  call (Listener_init self);;
  mret self.

(** [RemootioCoverEventListener.__init__] (lines 131-134) *)
Definition RemootioCoverEventListener_init (owner : loc) : M loc :=
  self ← alloc (ORemootioCoverEventListener owner);
  call (Listener_init self);;
  mret self.

(** lines 85-87 *)
Definition async_update (self : loc) : M unit :=
  client ← remootio_client_of self;
  call (trigger_state_update client);;
  mret tt.

(** lines 77-83: the receiver [self._remootio_client] is read before the
    argument, the new listener, is built. *)
Definition async_added_to_hass (self : loc) : M unit :=
  client ← remootio_client_of self;
  l ← RemootioCoverStateChangeListener_init self;
  call (add_state_change_listener client l);;
  client ← remootio_client_of self;
  l ← RemootioCoverEventListener_init self;
  call (add_event_listener client l);;
  async_update self.

(** lines 89-92 *)
Definition is_opening (self : loc) : M bool :=
  client ← remootio_client_of self;
  st ← state client;
  mret (bool_decide (st = OPENING)).

(** lines 94-97 *)
Definition is_closing (self : loc) : M bool :=
  client ← remootio_client_of self;
  st ← state client;
  mret (bool_decide (st = CLOSING)).

(** lines 99-104. The result is [bool | None]: Python's [None] is Rocq's
    [None]. The state is read once for the test and once more for the
    result. *)
Definition is_closed (self : loc) : M (option bool) :=
  client ← remootio_client_of self;
  st ← state client;
  if bool_decide (st = NO_SENSOR_INSTALLED) then mret None
  else
    client ← remootio_client_of self;
    st ← state client;
    mret (Some (bool_decide (st = CLOSED))).

(** lines 106-108 *)
Definition async_open_cover (self : loc) (kwargs : gmap string PyVal)
    : M unit :=
  client ← remootio_client_of self;
  call (trigger_open client);;
  mret tt.

(** lines 110-112 *)
Definition async_close_cover (self : loc) (kwargs : gmap string PyVal)
    : M unit :=
  client ← remootio_client_of self;
  call (trigger_close client);;
  mret tt.

(** ** class RemootioCoverStateChangeListener *)

(** [execute] (lines 123-125) *)
Definition RemootioCoverStateChangeListener_execute (self : loc)
    (client : handle) (subject : StateChange) : M unit :=
  o ← owner self;
  call (async_write_ha_state o);;
  mret tt.

(** ** class RemootioCoverEventListener *)

(** [execute] (lines 136-147). The bus is that of the owner's [hass], which
    the host has set by the time the entity is activated and its listeners
    exist. The dict literal is filled entry by entry, in the order written. *)
Definition RemootioCoverEventListener_execute (self : loc)
    (client : handle) (subject : Event) : M unit :=
  if bool_decide (type subject = LEFT_OPEN) then
    let event_type :=
      lower (DOMAIN const) +:+ "_" +:+ lower (EventType_name (type subject)) in
    bus_of ← owner self;
    o ← owner self;
    v_entity_id ← entity_id o;
    o ← owner self;
    v_unique_id ← unique_id o;
    o ← owner self;
    v_name ← entity_name o;
    call (bus_async_fire bus_of event_type
            (<[ATTR_NAME := v_name]>
               (<[ATTR_SERIAL_NUMBER const := v_unique_id]>
                  (<[ATTR_ENTITY_ID := v_entity_id]> ∅))));;
    mret tt
  else mret tt.

(** ** The platform's entry point *)

(** The format string of the debug line of [async_setup_entry]. *)
Definition setup_message : string :=
  "Doing async_setup_entry. config_entry [%s] hass.data[%s][%s] [%s]".

(** lines 21-48. The arguments of the debug line are evaluated before it
    is written, so a missing [hass.data] key raises there already. *)
Definition async_setup_entry (hass : HomeAssistant.t)
    (config_entry : ConfigEntry.t) (async_add_entities : AddEntitiesCallback)
    : M unit :=
  entry ← call (as_dict config_entry);
  by_domain ← subscript (HomeAssistant.data hass) (DOMAIN const);
  shared ← subscript by_domain (ConfigEntry.entry_id config_entry);
  call (LOGGER_debug setup_message
          entry (DOMAIN const) (ConfigEntry.entry_id config_entry) shared);;
  serial_number ← subscript (ConfigEntry.data config_entry)
                    (CONF_SERIAL_NUMBER const);
  device_class ← subscript (ConfigEntry.data config_entry) CONF_DEVICE_CLASS;
  by_domain ← subscript (HomeAssistant.data hass) (DOMAIN const);
  shared ← subscript by_domain (ConfigEntry.entry_id config_entry);
  remootio_client ← subscript shared (REMOOTIO_CLIENT const);
  cover ← RemootioCover_init serial_number (ConfigEntry.title config_entry)
            device_class remootio_client;
  call (add_entities async_add_entities [cover]);;
  mret tt.

End World.

Arguments World : clear implicits.
Arguments Env : clear implicits.

(** ** Environments and a world to run the code on *)

Module Sample.

(** Collaborators that answer every call with [None] and never raise;
    the door is in state [st]. *)
Definition quiet (st : State) : Env unit :=
  {| respond := λ _ x, (Ok VNone, x);
     RemootioClient_state := λ _ _, st;
     RemootioClient_api_version := λ _ _, 2%Z;
     Entity_entity_id := λ _ _, VStr "cover.garage";
     Entity_name := λ _ _, VStr "Garage" |}.

(** Collaborators that raise [e] on every call. *)
Definition failing (e : Exn) : Env unit :=
  {| respond := λ _ x, (Raise e, x);
     RemootioClient_state := λ _ _, OtherState "UNKNOWN";
     RemootioClient_api_version := λ _ _, 2%Z;
     Entity_entity_id := λ _ _, VStr "cover.garage";
     Entity_name := λ _ _, VStr "Garage" |}.

Definition const : Const :=
  {| ATTR_SERIAL_NUMBER := "serial_number";
     CONF_SERIAL_NUMBER := "serial_number";
     DOMAIN := "remootio";
     REMOOTIO_CLIENT := "remootio_client" |}.

Definition cover : RemootioCover :=
  {| _attr_unique_id := VStr "SN0042";
     _attr_device_class := VStr "garage";
     _remootio_client := 7;
     _attr_device_info :=
       {| identifiers := [("remootio", VStr "SN0042")];
          name := "Garage";
          manufacturer := "Assemblabs Ltd";
          model := "Remootio 3";
          sw_version := "2" |} |}.

(** One entity (object 0) with its two listeners (objects 1 and 2). *)
Definition world : World unit :=
  {| store := <[2%nat := ORemootioCoverEventListener 0]>
                (<[1%nat := ORemootioCoverStateChangeListener 0]>
                   (<[0%nat := ORemootioCover cover]> ∅));
     calls := [];
     ext := tt |}.

Definition config_entry : ConfigEntry.t :=
  {| ConfigEntry.entry_id := "e1";
     ConfigEntry.title := "Garage";
     ConfigEntry.data :=
       <["device_class" := VStr "garage"]>
         (<["serial_number" := VStr "SN0042"]> ∅) |}.

Definition hass : HomeAssistant.t :=
  {| HomeAssistant.data :=
       {["remootio" := {["e1" := {["remootio_client" := VClient 7]}]}]} |}.

Definition connection_lost : Exn := mkExn "RemootioClientError" "not connected".

End Sample.

(** ** Stores and logs as a whole *)

(** A listener's owner is an entity of the store. *)
Definition owner_stored (s : gmap loc Obj) (o : Obj) : bool :=
  match owner_of o with
  | Some l => bool_decide (is_Some (s !! l ≫= as_cover))
  | None => true
  end.

(** Every listener of the store is owned by an entity of the store. *)
Definition owners_stored (s : gmap loc Obj) : Prop :=
  map_Forall (λ _ o, owner_stored s o = true) s.

#[global] Instance owners_stored_dec (s : gmap loc Obj) :
  Decision (owners_stored s).
Proof. unfold owners_stored. apply _. Defined.

(** The call hands entities to the host. *)
Definition is_add_entities (c : Call) : bool :=
  match c with
  | add_entities _ _ => true
  | _ => false
  end.

(** A computation that creates, drops and changes no object. *)
Definition keeps_store {X A : Type} (m : @M X A) : Prop :=
  ∀ w, store (m w).2 = store w.

(** A computation after which every object is still there as it was and
    the log has at most grown at its end. *)
Definition grows {X A : Type} (m : @M X A) : Prop :=
  ∀ w, store w ⊆ store (m w).2 ∧ calls w `prefix_of` calls (m w).2.

(** The world once the debug line of [async_setup_entry] is written. *)
Definition logged {X : Type} (const : Const) (w : World X)
    (config_entry : ConfigEntry.t) (v : PyVal) (shared : gmap string PyVal)
    (x : X) : World X :=
  mkWorld (store w)
    (calls w ++
       [as_dict config_entry;
        LOGGER_debug setup_message v (DOMAIN const)
          (ConfigEntry.entry_id config_entry) shared])
    x.

(** More samples: a host whose shared storage was never filled, entries
    with values missing, a store with a listener of nobody. *)
Module Cases.

Definition empty_hass : HomeAssistant.t := {| HomeAssistant.data := ∅ |}.

Definition no_client_hass : HomeAssistant.t :=
  {| HomeAssistant.data := {["remootio" := {["e1" := ∅]}]} |}.

Definition none_client_hass : HomeAssistant.t :=
  {| HomeAssistant.data :=
       {["remootio" := {["e1" := {["remootio_client" := VNone]}]}]} |}.

Definition no_data_entry : ConfigEntry.t :=
  {| ConfigEntry.entry_id := "e1";
     ConfigEntry.title := "Garage";
     ConfigEntry.data := ∅ |}.

Definition no_class_entry : ConfigEntry.t :=
  {| ConfigEntry.entry_id := "e1";
     ConfigEntry.title := "Garage";
     ConfigEntry.data := {["serial_number" := VStr "SN0042"]} |}.

(** The client refuses subscriptions; everything else answers. *)
Definition no_subscription (e : Exn) : Env unit :=
  {| respond := λ c x,
       match c with
       | add_state_change_listener _ _ | add_event_listener _ _ => (Raise e, x)
       | _ => (Ok VNone, x)
       end;
     RemootioClient_state := λ _ _, CLOSED;
     RemootioClient_api_version := λ _ _, 2%Z;
     Entity_entity_id := λ _ _, VStr "cover.garage";
     Entity_name := λ _ _, VStr "Garage" |}.

Definition mixed_case_const : Const :=
  {| ATTR_SERIAL_NUMBER := "serial_number";
     CONF_SERIAL_NUMBER := "serial_number";
     DOMAIN := "Remootio";
     REMOOTIO_CLIENT := "remootio_client" |}.

End Cases.

(** ** Running the code on the samples *)

Example str_of_int_samples :
  str_of_int 0 = "0" ∧ str_of_int 2 = "2" ∧ str_of_int 1203 = "1203"
  ∧ str_of_int (-45) = "-45".
Proof. repeat split; reflexivity. Qed.

Example lower_sample : lower "Remootio_LEFT_OPEN" = "remootio_left_open".
Proof. reflexivity. Qed.

Example supported_features_value : _attr_supported_features = 3%Z.
Proof. reflexivity. Qed.

Example is_opening_sample :
  is_opening (Sample.quiet OPENING) 0 Sample.world = (Ok true, Sample.world).
Proof. vm_compute. reflexivity. Qed.

Example open_sample :
  calls (async_open_cover (Sample.quiet CLOSED) 0 ∅ Sample.world).2
  = [trigger_open 7].
Proof. vm_compute. reflexivity. Qed.

(** ** Stepping through a computation *)

Section Steps.

Context {X : Type} (env : Env X).

Lemma bind_ok {A B : Type} (m : M A) (f : A → M B) (w w' : World X) (a : A) :
  m w = (Ok a, w') → (m ≫= f) w = f a w'.
Proof. intros Hm. unfold mbind, M_bind. by rewrite Hm. Qed.

Lemma bind_raise {A B : Type} (m : M A) (f : A → M B) (w w' : World X)
    (e : Exn) :
  m w = (Raise e, w') → (m ≫= f) w = (Raise e, w').
Proof. intros Hm. unfold mbind, M_bind. by rewrite Hm. Qed.

Lemma getattr_ok {A : Type} (attr : string) (sel : Obj → option A)
    (self : loc) (o : Obj) (a : A) (w : World X) :
  store w !! self = Some o → sel o = Some a →
  getattr attr sel self w = (Ok a, w).
Proof. intros Hs Ha. unfold getattr. rewrite Hs. simpl. by rewrite Ha. Qed.

Lemma remootio_client_of_cover (self : loc) (c : RemootioCover) (w : World X) :
  store w !! self = Some (ORemootioCover c) →
  remootio_client_of self w = (Ok (_remootio_client c), w).
Proof. intros Hs. by apply getattr_ok with (o := ORemootioCover c). Qed.

Lemma unique_id_cover (self : loc) (c : RemootioCover) (w : World X) :
  store w !! self = Some (ORemootioCover c) →
  unique_id self w = (Ok (_attr_unique_id c), w).
Proof. intros Hs. by apply getattr_ok with (o := ORemootioCover c). Qed.

Lemma owner_state_change_listener (self o : loc) (w : World X) :
  store w !! self = Some (ORemootioCoverStateChangeListener o) →
  owner self w = (Ok o, w).
Proof.
  intros Hs. by apply getattr_ok with (o := ORemootioCoverStateChangeListener o).
Qed.

Lemma owner_event_listener (self o : loc) (w : World X) :
  store w !! self = Some (ORemootioCoverEventListener o) →
  owner self w = (Ok o, w).
Proof.
  intros Hs. by apply getattr_ok with (o := ORemootioCoverEventListener o).
Qed.

Lemma state_read (client : handle) (w : World X) :
  state env client w = (Ok (RemootioClient_state env (ext w) client), w).
Proof. reflexivity. Qed.

(** A call that answers extends the log by itself and nothing else. *)
Lemma call_ok (c : Call) (w : World X) (v : PyVal) (x : X) :
  respond env c (ext w) = (Ok v, x) →
  call env c w = (Ok v, mkWorld (store w) (calls w ++ [c]) x).
Proof. intros Hr. unfold call. by rewrite Hr. Qed.

Lemma call_raise (c : Call) (w : World X) (e : Exn) (x : X) :
  respond env c (ext w) = (Raise e, x) →
  call env c w = (Raise e, mkWorld (store w) (calls w ++ [c]) x).
Proof. intros Hr. unfold call. by rewrite Hr. Qed.

(** Whatever the answer, a call leaves the store alone and is logged once. *)
Lemma call_frame (c : Call) (w : World X) :
  store (call env c w).2 = store w ∧ calls (call env c w).2 = calls w ++ [c].
Proof. unfold call. by destruct (respond env c (ext w)). Qed.

(** A method whose body is one call on the entity's client. *)
Lemma delegate (self : loc) (cov : RemootioCover) (c : handle → Call)
    (w : World X) :
  store w !! self = Some (ORemootioCover cov) →
  (client ← remootio_client_of self; call env (c client);; mret tt) w
  = (match (respond env (c (_remootio_client cov)) (ext w)).1 with
     | Ok _ => Ok tt
     | Raise e => Raise e
     end,
     mkWorld (store w) (calls w ++ [c (_remootio_client cov)])
       (respond env (c (_remootio_client cov)) (ext w)).2).
Proof.
  intros Hs.
  rewrite (bind_ok _ _ _ _ _ (remootio_client_of_cover _ _ _ Hs)).
  unfold mbind, M_bind, call.
  by destruct (respond env _ (ext w)) as [[v|e] x].
Qed.

End Steps.

(** ** The state properties of the entity *)

Section Properties.

Context {X : Type} (env : Env X).

(** The three properties, evaluated. *)
Lemma properties_eval (w : World X) (self : loc) (cov : RemootioCover)
    (st : State) :
  store w !! self = Some (ORemootioCover cov) →
  RemootioClient_state env (ext w) (_remootio_client cov) = st →
  is_opening env self w = (Ok (bool_decide (st = OPENING)), w)
  ∧ is_closing env self w = (Ok (bool_decide (st = CLOSING)), w)
  ∧ is_closed env self w
    = (Ok (if bool_decide (st = NO_SENSOR_INSTALLED) then None
           else Some (bool_decide (st = CLOSED))), w).
Proof.
  intros Hs Hst.
  pose proof (remootio_client_of_cover self cov w Hs) as Hc.
  unfold is_opening, is_closing, is_closed.
  rewrite !(bind_ok _ _ _ _ _ Hc).
  rewrite !(bind_ok _ _ _ _ _ (state_read env _ w)).
  rewrite Hst. split_and!; [done | done |].
  case_bool_decide; [done |].
  rewrite (bind_ok _ _ _ _ _ Hc).
  rewrite (bind_ok _ _ _ _ _ (state_read env _ w)).
  by rewrite Hst.
Qed.

(** C1 (amended): for every state [st] of the client, [is_opening] returns
    [st == OPENING] and [is_closing] returns [st == CLOSING]; [is_closed]
    returns [st == CLOSED] for every state other than NO_SENSOR_INSTALLED,
    where it returns [None]. None of the three changes anything. *)
Theorem properties_follow_client_state (w : World X) (self : loc)
    (cov : RemootioCover) (st : State) :
  store w !! self = Some (ORemootioCover cov) →
  RemootioClient_state env (ext w) (_remootio_client cov) = st →
  is_opening env self w = (Ok (bool_decide (st = OPENING)), w)
  ∧ is_closing env self w = (Ok (bool_decide (st = CLOSING)), w)
  ∧ (st ≠ NO_SENSOR_INSTALLED →
     is_closed env self w = (Ok (Some (bool_decide (st = CLOSED))), w))
  ∧ (st = NO_SENSOR_INSTALLED → is_closed env self w = (Ok None, w)).
Proof.
  intros Hs Hst.
  destruct (properties_eval w self cov st Hs Hst) as (Ho & Hc & Hd).
  split_and!; [exact Ho | exact Hc | |]; intros Hcase; rewrite Hd.
  - by rewrite bool_decide_eq_false_2.
  - by rewrite bool_decide_eq_true_2.
Qed.

(** C8: [is_closed] returns [None] if and only if the client's state is
    NO_SENSOR_INSTALLED; for every other state it returns the boolean
    [state == CLOSED]. *)
Theorem is_closed_none_iff_no_sensor (w : World X) (self : loc)
    (cov : RemootioCover) :
  store w !! self = Some (ORemootioCover cov) →
  ∃ r : option bool,
    is_closed env self w = (Ok r, w)
    ∧ (r = None
       ↔ RemootioClient_state env (ext w) (_remootio_client cov)
         = NO_SENSOR_INSTALLED)
    ∧ (RemootioClient_state env (ext w) (_remootio_client cov)
       ≠ NO_SENSOR_INSTALLED →
       r = Some (bool_decide
                   (RemootioClient_state env (ext w) (_remootio_client cov)
                    = CLOSED))).
Proof.
  intros Hs.
  destruct (properties_eval w self cov _ Hs eq_refl) as (_ & _ & Hclosed).
  eexists. split; [exact Hclosed |].
  case_bool_decide as Hst; split; try done.
Qed.

(** C9: of the three indications "opening", "closing" and "closed", at
    most one is [True] in any state of the client. *)
Theorem indications_exclusive (w : World X) (self : loc)
    (cov : RemootioCover) :
  store w !! self = Some (ORemootioCover cov) →
  ∃ (o c : bool) (d : option bool),
    is_opening env self w = (Ok o, w)
    ∧ is_closing env self w = (Ok c, w)
    ∧ is_closed env self w = (Ok d, w)
    ∧ (Nat.b2n o + Nat.b2n c + Nat.b2n (bool_decide (d = Some true)) ≤ 1)%nat.
Proof.
  intros Hs.
  destruct (properties_eval w self cov _ Hs eq_refl) as (Ho & Hc & Hd).
  eexists _, _, _. split_and!; [exact Ho | exact Hc | exact Hd |].
  destruct (RemootioClient_state env (ext w) (_remootio_client cov));
    vm_compute; lia.
Qed.

End Properties.

(** ** Commands and refresh *)

Section Commands.

Context {X : Type} (env : Env X).

(** C2: [async_open_cover] makes one call, [trigger_open] on the entity's
    client, and [async_close_cover] makes one call, [trigger_close] on it;
    neither does anything else, whatever the keyword arguments and whatever
    the client answers. *)
Theorem command_calls_one_client_method (w : World X) (self : loc)
    (cov : RemootioCover) (kwargs : gmap string PyVal) :
  store w !! self = Some (ORemootioCover cov) →
  async_open_cover env self kwargs w
  = (match (respond env (trigger_open (_remootio_client cov)) (ext w)).1 with
     | Ok _ => Ok tt
     | Raise e => Raise e
     end,
     mkWorld (store w) (calls w ++ [trigger_open (_remootio_client cov)])
       (respond env (trigger_open (_remootio_client cov)) (ext w)).2)
  ∧ async_close_cover env self kwargs w
    = (match (respond env (trigger_close (_remootio_client cov)) (ext w)).1
       with
       | Ok _ => Ok tt
       | Raise e => Raise e
       end,
       mkWorld (store w) (calls w ++ [trigger_close (_remootio_client cov)])
         (respond env (trigger_close (_remootio_client cov)) (ext w)).2).
Proof.
  intros Hs. unfold async_open_cover, async_close_cover.
  by rewrite (delegate env self cov trigger_open w Hs),
             (delegate env self cov trigger_close w Hs).
Qed.

(** C7: when the client method a command or a refresh delegates to raises,
    the same exception reaches the caller, the method has been called once
    and not again, and the objects of the store are as they were. *)
Theorem client_error_propagates (w : World X) (self : loc)
    (cov : RemootioCover) (e : Exn) (x : X) :
  store w !! self = Some (ORemootioCover cov) →
  (respond env (trigger_state_update (_remootio_client cov)) (ext w)
   = (Raise e, x) →
   async_update env self w
   = (Raise e,
      mkWorld (store w)
        (calls w ++ [trigger_state_update (_remootio_client cov)]) x))
  ∧ (∀ kwargs,
       respond env (trigger_open (_remootio_client cov)) (ext w)
       = (Raise e, x) →
       async_open_cover env self kwargs w
       = (Raise e,
          mkWorld (store w)
            (calls w ++ [trigger_open (_remootio_client cov)]) x))
  ∧ (∀ kwargs,
       respond env (trigger_close (_remootio_client cov)) (ext w)
       = (Raise e, x) →
       async_close_cover env self kwargs w
       = (Raise e,
          mkWorld (store w)
            (calls w ++ [trigger_close (_remootio_client cov)]) x)).
Proof.
  intros Hs. unfold async_update, async_open_cover, async_close_cover.
  split_and!; [| intros _ | intros _]; intros Hr;
    rewrite (delegate env self cov _ w Hs); by rewrite Hr.
Qed.

End Commands.

(** ** The listeners *)

Section Listeners.

Context {X : Type} (const : Const) (env : Env X).

(** C5: on a state change the state-change listener calls
    [async_write_ha_state] on its owner, once, and does nothing else,
    whatever the client and the state change handed to it. *)
Theorem state_change_writes_ha_state (w : World X) (self o : loc)
    (client : handle) (subject : StateChange) :
  store w !! self = Some (ORemootioCoverStateChangeListener o) →
  RemootioCoverStateChangeListener_execute env self client subject w
  = (match (respond env (async_write_ha_state o) (ext w)).1 with
     | Ok _ => Ok tt
     | Raise e => Raise e
     end,
     mkWorld (store w) (calls w ++ [async_write_ha_state o])
       (respond env (async_write_ha_state o) (ext w)).2).
Proof.
  intros Hs. unfold RemootioCoverStateChangeListener_execute.
  rewrite (bind_ok _ _ _ _ _ (owner_state_change_listener self o w Hs)).
  unfold mbind, M_bind, call.
  by destruct (respond env _ (ext w)) as [[v|e] x].
Qed.

(** The dict literal of the event: three entries when the keys differ. *)
Lemma event_data_three_entries (k : string) (v1 v2 v3 : PyVal) :
  k ≠ ATTR_ENTITY_ID → k ≠ ATTR_NAME →
  let d : gmap string PyVal :=
    <[ATTR_NAME := v3]> (<[k := v2]> (<[ATTR_ENTITY_ID := v1]> ∅)) in
  dom d = ({[ATTR_ENTITY_ID; k; ATTR_NAME]} : gset string)
  ∧ size d = 3%nat
  ∧ d !! ATTR_ENTITY_ID = Some v1
  ∧ d !! k = Some v2
  ∧ d !! ATTR_NAME = Some v3.
Proof.
  intros Hk1 Hk2 d. subst d.
  assert (ATTR_ENTITY_ID ≠ ATTR_NAME) as Hk3 by done.
  split_and!.
  - rewrite !dom_insert_L, dom_empty_L. apply set_eq. intros s.
    rewrite !elem_of_union, !elem_of_singleton, elem_of_empty. tauto.
  - rewrite !map_size_insert_None, map_size_empty; [done | ..];
      by simplify_map_eq.
  - by simplify_map_eq.
  - by simplify_map_eq.
  - by simplify_map_eq.
Qed.

(** C4: on an event of type LEFT_OPEN the event listener fires one event
    on the host's bus and does nothing else. The event is named after the
    domain and the event type, and its data has three entries: the entity
    id, the serial number (the unique id) and the name of the owner. *)
Theorem left_open_fires_one_event (w : World X) (self o : loc)
    (cov : RemootioCover) (client : handle) (subject : Event) :
  store w !! self = Some (ORemootioCoverEventListener o) →
  store w !! o = Some (ORemootioCover cov) →
  type subject = LEFT_OPEN →
  ATTR_SERIAL_NUMBER const ≠ ATTR_ENTITY_ID →
  ATTR_SERIAL_NUMBER const ≠ ATTR_NAME →
  ∃ event_data : gmap string PyVal,
    let fire :=
      bus_async_fire o (lower (DOMAIN const) +:+ "_left_open") event_data in
    RemootioCoverEventListener_execute const env self client subject w
    = (match (respond env fire (ext w)).1 with
       | Ok _ => Ok tt
       | Raise e => Raise e
       end,
       mkWorld (store w) (calls w ++ [fire]) (respond env fire (ext w)).2)
    ∧ dom event_data
      = ({[ATTR_ENTITY_ID; ATTR_SERIAL_NUMBER const; ATTR_NAME]} : gset string)
    ∧ size event_data = 3%nat
    ∧ event_data !! ATTR_ENTITY_ID = Some (Entity_entity_id env (ext w) o)
    ∧ event_data !! ATTR_SERIAL_NUMBER const = Some (_attr_unique_id cov)
    ∧ event_data !! ATTR_NAME = Some (Entity_name env (ext w) o).
Proof.
  intros Hs Ho Ht Hk1 Hk2.
  eexists. split; [| by apply event_data_three_entries].
  unfold RemootioCoverEventListener_execute.
  rewrite bool_decide_eq_true_2 by done. rewrite Ht.
  pose proof (owner_event_listener self o w Hs) as Hown.
  rewrite !(bind_ok _ _ _ _ _ Hown).
  unfold entity_id, entity_name.
  rewrite (bind_ok _ _ _ _ _ (eq_refl : read _ w = _)).
  rewrite (bind_ok _ _ _ _ _ Hown).
  rewrite (bind_ok _ _ _ _ _ (unique_id_cover o cov w Ho)).
  rewrite (bind_ok _ _ _ _ _ Hown).
  rewrite (bind_ok _ _ _ _ _ (eq_refl : read _ w = _)).
  unfold mbind, M_bind, call. simpl.
  by destruct (respond env _ (ext w)) as [[v|e] x].
Qed.

(** C10: on an event of any type other than LEFT_OPEN the event listener
    returns at once: no call is made and the world is as it was. *)
Theorem other_event_is_ignored (w : World X) (self : loc) (client : handle)
    (subject : Event) :
  type subject ≠ LEFT_OPEN →
  RemootioCoverEventListener_execute const env self client subject w
  = (Ok tt, w).
Proof.
  intros Ht. unfold RemootioCoverEventListener_execute.
  by rewrite bool_decide_eq_false_2.
Qed.

End Listeners.

(** ** Activation *)

Section Activation.

Context {X : Type} (env : Env X).

(** A new object's identity differs from that of every stored object. *)
Lemma fresh_not_stored (w : World X) (l : loc) (o : Obj) :
  store w !! l = Some o → l ≠ fresh (dom (store w)).
Proof.
  intros Hl ->. apply (is_fresh (dom (store w))).
  apply elem_of_dom. by exists o.
Qed.

Lemma fresh_is_new (w : World X) : store w !! fresh (dom (store w)) = None.
Proof. apply not_elem_of_dom, is_fresh. Qed.

Lemma StateChangeListener_init_ok (o : loc) (w : World X) (v : PyVal) (x : X) :
  respond env (Listener_init (fresh (dom (store w)))) (ext w) = (Ok v, x) →
  RemootioCoverStateChangeListener_init env o w
  = (Ok (fresh (dom (store w))),
     mkWorld
       (<[fresh (dom (store w)) := ORemootioCoverStateChangeListener o]>
          (store w))
       (calls w ++ [Listener_init (fresh (dom (store w)))]) x).
Proof.
  intros Hr. unfold RemootioCoverStateChangeListener_init.
  unfold mbind, M_bind, alloc, call. simpl. by rewrite Hr.
Qed.

Lemma EventListener_init_ok (o : loc) (w : World X) (v : PyVal) (x : X) :
  respond env (Listener_init (fresh (dom (store w)))) (ext w) = (Ok v, x) →
  RemootioCoverEventListener_init env o w
  = (Ok (fresh (dom (store w))),
     mkWorld
       (<[fresh (dom (store w)) := ORemootioCoverEventListener o]> (store w))
       (calls w ++ [Listener_init (fresh (dom (store w)))]) x).
Proof.
  intros Hr. unfold RemootioCoverEventListener_init.
  unfold mbind, M_bind, alloc, call. simpl. by rewrite Hr.
Qed.

Lemma StateChangeListener_init_raise (o : loc) (w : World X) (e : Exn)
    (x : X) :
  respond env (Listener_init (fresh (dom (store w)))) (ext w) = (Raise e, x) →
  RemootioCoverStateChangeListener_init env o w
  = (Raise e,
     mkWorld
       (<[fresh (dom (store w)) := ORemootioCoverStateChangeListener o]>
          (store w))
       (calls w ++ [Listener_init (fresh (dom (store w)))]) x).
Proof.
  intros Hr. unfold RemootioCoverStateChangeListener_init.
  unfold mbind, M_bind, alloc, call. simpl. by rewrite Hr.
Qed.

Lemma EventListener_init_raise (o : loc) (w : World X) (e : Exn) (x : X) :
  respond env (Listener_init (fresh (dom (store w)))) (ext w) = (Raise e, x) →
  RemootioCoverEventListener_init env o w
  = (Raise e,
     mkWorld
       (<[fresh (dom (store w)) := ORemootioCoverEventListener o]> (store w))
       (calls w ++ [Listener_init (fresh (dom (store w)))]) x).
Proof.
  intros Hr. unfold RemootioCoverEventListener_init.
  unfold mbind, M_bind, alloc, call. simpl. by rewrite Hr.
Qed.

(** C3: when it is added to the host, the entity creates a state-change
    listener and subscribes it to the client, then creates an event listener
    and subscribes it, then requests one state update from the client: two
    new listener objects, both owned by the entity, and these calls in this
    order, as long as the subscriptions return. *)
Theorem activation_subscribes_then_refreshes (w : World X) (self : loc)
    (cov : RemootioCover) (l1 l2 : loc) (v1 v2 v3 v4 : PyVal)
    (x1 x2 x3 x4 : X) :
  store w !! self = Some (ORemootioCover cov) →
  l1 = fresh (dom (store w)) →
  l2 = fresh (dom (<[l1 := ORemootioCoverStateChangeListener self]> (store w))) →
  respond env (Listener_init l1) (ext w) = (Ok v1, x1) →
  respond env (add_state_change_listener (_remootio_client cov) l1) x1
  = (Ok v2, x2) →
  respond env (Listener_init l2) x2 = (Ok v3, x3) →
  respond env (add_event_listener (_remootio_client cov) l2) x3
  = (Ok v4, x4) →
  async_added_to_hass env self w
  = (match (respond env (trigger_state_update (_remootio_client cov)) x4).1
     with
     | Ok _ => Ok tt
     | Raise e => Raise e
     end,
     mkWorld
       (<[l2 := ORemootioCoverEventListener self]>
          (<[l1 := ORemootioCoverStateChangeListener self]> (store w)))
       (calls w ++
          [Listener_init l1;
           add_state_change_listener (_remootio_client cov) l1;
           Listener_init l2;
           add_event_listener (_remootio_client cov) l2;
           trigger_state_update (_remootio_client cov)])
       (respond env (trigger_state_update (_remootio_client cov)) x4).2)
  ∧ l1 ≠ l2
  ∧ store w !! l1 = None
  ∧ store w !! l2 = None.
Proof.
  intros Hs Hl1 Hl2 H1 H2 H3 H4.
  set (w1 := mkWorld (<[l1 := ORemootioCoverStateChangeListener self]> (store w))
               (calls w ++ [Listener_init l1]) x1).
  set (w2 := mkWorld (store w1) (calls w1 ++ [add_state_change_listener
               (_remootio_client cov) l1]) x2).
  set (w3 := mkWorld (<[l2 := ORemootioCoverEventListener self]> (store w2))
               (calls w2 ++ [Listener_init l2]) x3).
  set (w4 := mkWorld (store w3) (calls w3 ++ [add_event_listener
               (_remootio_client cov) l2]) x4).
  assert (self ≠ l1) as Hne1 by (subst l1; by eapply fresh_not_stored).
  assert (store w1 !! self = Some (ORemootioCover cov)) as Hs1
    by (simpl; by rewrite lookup_insert_ne).
  assert (self ≠ l2) as Hne2
    by (rewrite Hl2; by apply (fresh_not_stored w1 self _ Hs1)).
  assert (store w3 !! self = Some (ORemootioCover cov)) as Hs3
    by (simpl; by rewrite lookup_insert_ne).
  assert (store w1 !! l1 = Some (ORemootioCoverStateChangeListener self))
    as Hl1stored by (simpl; by rewrite lookup_insert_eq).
  split_and!.
  - unfold async_added_to_hass.
    rewrite (bind_ok _ _ _ _ _ (remootio_client_of_cover self cov w Hs)).
    rewrite (bind_ok _ _ w w1 l1).
    2: { subst l1 w1. by eapply StateChangeListener_init_ok. }
    rewrite (bind_ok _ _ w1 w2 v2) by (by apply call_ok).
    rewrite (bind_ok _ _ _ _ _ (remootio_client_of_cover self cov w2 Hs1)).
    rewrite (bind_ok _ _ w2 w3 l2).
    2: { assert (l2 = fresh (dom (store w2))) as Hl2' by exact Hl2.
         unfold w3. rewrite Hl2'.
         apply (EventListener_init_ok self w2 v3 x3).
         rewrite <- Hl2'. exact H3. }
    rewrite (bind_ok _ _ w3 w4 v4) by (by apply call_ok).
    unfold async_update.
    rewrite (delegate env self cov trigger_state_update w4 Hs3).
    subst w4 w3 w2 w1. simpl. by rewrite <- !app_assoc.
  - rewrite Hl2. by apply (fresh_not_stored w1 l1 _ Hl1stored).
  - subst l1. apply fresh_is_new.
  - destruct (store w !! l2) as [o|] eqn:Hl2w; [| done].
    exfalso. apply (fresh_not_stored w1 l2 o); [| done].
    simpl. rewrite lookup_insert_ne; [done |].
    intros Heq. rewrite <- Heq, Hl1 in Hl2w.
    by rewrite fresh_is_new in Hl2w.
Qed.

(** Whatever the collaborators answer, activation makes no call outside
    this sequence and none out of order: an exception ends it early, and
    the calls made up to then are an initial part of the five. *)
Lemma activation_calls_in_order (w : World X) (self : loc)
    (cov : RemootioCover) :
  store w !! self = Some (ORemootioCover cov) →
  let l1 := fresh (dom (store w)) in
  let l2 :=
    fresh (dom (<[l1 := ORemootioCoverStateChangeListener self]> (store w))) in
  ∃ k : nat,
    calls (async_added_to_hass env self w).2
    = calls w ++
        take k
          [Listener_init l1;
           add_state_change_listener (_remootio_client cov) l1;
           Listener_init l2;
           add_event_listener (_remootio_client cov) l2;
           trigger_state_update (_remootio_client cov)].
Proof.
  intros Hs l1 l2.
  assert (self ≠ l1) as Hne1 by (by eapply fresh_not_stored).
  set (s1 := <[l1 := ORemootioCoverStateChangeListener self]> (store w)).
  assert (s1 !! self = Some (ORemootioCover cov)) as Hs1
    by (unfold s1; by rewrite lookup_insert_ne).
  assert (self ≠ l2) as Hne2
    by (apply (fresh_not_stored (mkWorld s1 [] (ext w)) self _ Hs1)).
  unfold async_added_to_hass.
  rewrite (bind_ok _ _ _ _ _ (remootio_client_of_cover self cov w Hs)).
  destruct (respond env (Listener_init l1) (ext w)) as [[v1|e1] x1] eqn:H1.
  2: { exists 1%nat.
       by rewrite (bind_raise _ _ _ _ _
                     (StateChangeListener_init_raise self w e1 x1 H1)). }
  rewrite (bind_ok _ _ _ _ _ (StateChangeListener_init_ok self w v1 x1 H1)).
  fold l1. fold s1.
  set (w1 := mkWorld s1 (calls w ++ [Listener_init l1]) x1).
  destruct (respond env (add_state_change_listener (_remootio_client cov) l1)
              x1) as [[v2|e2] x2] eqn:H2.
  2: { exists 2%nat. rewrite (bind_raise _ _ _ _ _ (call_raise env _ w1 e2 x2 H2)).
       simpl. by rewrite <- app_assoc. }
  rewrite (bind_ok _ _ _ _ _ (call_ok env _ w1 v2 x2 H2)).
  set (w2 := mkWorld (store w1) (calls w1 ++ [add_state_change_listener
               (_remootio_client cov) l1]) x2).
  rewrite (bind_ok _ _ _ _ _ (remootio_client_of_cover self cov w2 Hs1)).
  destruct (respond env (Listener_init l2) x2) as [[v3|e3] x3] eqn:H3.
  2: { exists 3%nat.
       rewrite (bind_raise _ _ _ _ _
                  (EventListener_init_raise self w2 e3 x3 H3)).
       simpl. by rewrite <- !app_assoc. }
  rewrite (bind_ok _ _ _ _ _ (EventListener_init_ok self w2 v3 x3 H3)).
  set (w3 := mkWorld (<[l2 := ORemootioCoverEventListener self]> (store w2))
               (calls w2 ++ [Listener_init l2]) x3).
  assert (store w3 !! self = Some (ORemootioCover cov)) as Hs3
    by (simpl; by rewrite lookup_insert_ne).
  destruct (respond env (add_event_listener (_remootio_client cov) l2) x3)
    as [[v4|e4] x4] eqn:H4.
  2: { exists 4%nat. rewrite (bind_raise _ _ _ _ _ (call_raise env _ w3 e4 x4 H4)).
       simpl. by rewrite <- !app_assoc. }
  rewrite (bind_ok _ _ _ _ _ (call_ok env _ w3 v4 x4 H4)).
  exists 5%nat. unfold async_update.
  rewrite (delegate env self cov trigger_state_update
             (mkWorld (store w3)
                (calls w3 ++ [add_event_listener (_remootio_client cov) l2])
                x4) Hs3).
  simpl. by rewrite <- !app_assoc.
Qed.

End Activation.

(** ** Setup *)

Section Setup.

Context {X : Type} (const : Const) (env : Env X).

Lemma subscript_ok {V : Type} (d : gmap string V) (k : string) (v : V)
    (w : World X) :
  d !! k = Some v → subscript d k w = (Ok v, w).
Proof. intros Hd. unfold subscript. by rewrite Hd. Qed.

Lemma subscript_missing {V : Type} (d : gmap string V) (k : string)
    (w : World X) :
  d !! k = None → subscript d k w = (Raise (KeyError k), w).
Proof. intros Hd. unfold subscript. by rewrite Hd. Qed.

(** C6: setup reads the serial number and the device class from the data
    of the configuration entry and the client from [hass.data], builds one
    [RemootioCover] from these and the entry's title, and hands a list of
    that one entity to the add-entities callback, once. *)
Theorem setup_registers_one_entity (w : World X) (hass : HomeAssistant.t)
    (config_entry : ConfigEntry.t) (async_add_entities : AddEntitiesCallback)
    (serial_number device_class : PyVal) (client : handle)
    (by_domain : gmap string (gmap string PyVal))
    (shared : gmap string PyVal) (v1 v2 : PyVal) (x1 x2 : X) :
  ConfigEntry.data config_entry !! CONF_SERIAL_NUMBER const
  = Some serial_number →
  ConfigEntry.data config_entry !! CONF_DEVICE_CLASS = Some device_class →
  HomeAssistant.data hass !! DOMAIN const = Some by_domain →
  by_domain !! ConfigEntry.entry_id config_entry = Some shared →
  shared !! REMOOTIO_CLIENT const = Some (VClient client) →
  respond env (as_dict config_entry) (ext w) = (Ok v1, x1) →
  respond env
    (LOGGER_debug setup_message v1 (DOMAIN const)
       (ConfigEntry.entry_id config_entry) shared) x1
  = (Ok v2, x2) →
  let entity := fresh (dom (store w)) in
  let cover :=
    {| _attr_unique_id := serial_number;
       _attr_device_class := device_class;
       _remootio_client := client;
       _attr_device_info :=
         {| identifiers := [(DOMAIN const, serial_number)];
            name := ConfigEntry.title config_entry;
            manufacturer := "Assemblabs Ltd";
            model := "Remootio 3";
            sw_version :=
              str_of_int (RemootioClient_api_version env x2 client) |} |} in
  let register := add_entities async_add_entities [entity] in
  async_setup_entry const env hass config_entry async_add_entities w
  = (match (respond env register x2).1 with
     | Ok _ => Ok tt
     | Raise e => Raise e
     end,
     mkWorld (<[entity := ORemootioCover cover]> (store w))
       (calls w ++
          [as_dict config_entry;
           LOGGER_debug setup_message v1 (DOMAIN const)
             (ConfigEntry.entry_id config_entry) shared;
           register])
       (respond env register x2).2)
  ∧ store w !! entity = None.
Proof.
  intros Hserial Hclass Hdomain Hentry Hclient Hdict Hlog entity cover register.
  split; [| apply not_elem_of_dom, is_fresh].
  unfold async_setup_entry.
  rewrite (bind_ok _ _ _ _ _ (call_ok env _ w v1 x1 Hdict)).
  rewrite (bind_ok _ _ _ _ _ (subscript_ok _ _ _ _ Hdomain)).
  rewrite (bind_ok _ _ _ _ _ (subscript_ok _ _ _ _ Hentry)).
  rewrite (bind_ok _ _ _ _ _
             (call_ok env _ (mkWorld (store w) (calls w ++ [as_dict config_entry]) x1)
                v2 x2 Hlog)).
  rewrite (bind_ok _ _ _ _ _ (subscript_ok _ _ _ _ Hserial)).
  rewrite (bind_ok _ _ _ _ _ (subscript_ok _ _ _ _ Hclass)).
  rewrite (bind_ok _ _ _ _ _ (subscript_ok _ _ _ _ Hdomain)).
  rewrite (bind_ok _ _ _ _ _ (subscript_ok _ _ _ _ Hentry)).
  rewrite (bind_ok _ _ _ _ _ (subscript_ok _ _ _ _ Hclient)).
  unfold RemootioCover_init, mbind, M_bind, read, alloc, call. simpl.
  fold entity. fold cover. fold register.
  destruct (respond env register x2) as [[v|e] x]; simpl;
    by rewrite <- !app_assoc.
Qed.

End Setup.

(** ** The theorems at work on the samples *)

Lemma sample_cover_stored :
  store Sample.world !! 0%nat = Some (ORemootioCover Sample.cover).
Proof. vm_compute. reflexivity. Defined.

Lemma sample_state_listener_stored :
  store Sample.world !! 1%nat = Some (ORemootioCoverStateChangeListener 0).
Proof. vm_compute. reflexivity. Defined.

Lemma sample_event_listener_stored :
  store Sample.world !! 2%nat = Some (ORemootioCoverEventListener 0).
Proof. vm_compute. reflexivity. Defined.

(** With no sensor installed [is_closed] is [None], not [state == CLOSED],
    which would be [False]. *)
Lemma is_closed_no_sensor_is_none :
  RemootioClient_state (Sample.quiet NO_SENSOR_INSTALLED) tt 7
  = NO_SENSOR_INSTALLED
  ∧ is_closed (Sample.quiet NO_SENSOR_INSTALLED) 0 Sample.world
    = (Ok None, Sample.world)
  ∧ is_closed (Sample.quiet NO_SENSOR_INSTALLED) 0 Sample.world
    ≠ (Ok (Some (bool_decide (NO_SENSOR_INSTALLED = CLOSED))), Sample.world).
Proof.
  assert (is_closed (Sample.quiet NO_SENSOR_INSTALLED) 0 Sample.world
          = (Ok None, Sample.world)) as Hnone by (vm_compute; reflexivity).
  split; [reflexivity |]. split; [exact Hnone |].
  rewrite Hnone. intros Heq. discriminate Heq.
Qed.

Lemma properties_follow_client_state_witness :
  store Sample.world !! 0%nat = Some (ORemootioCover Sample.cover)
  ∧ is_opening (Sample.quiet OPENING) 0 Sample.world
    = (Ok true, Sample.world)
  ∧ is_closing (Sample.quiet OPENING) 0 Sample.world
    = (Ok false, Sample.world)
  ∧ is_closed (Sample.quiet OPENING) 0 Sample.world
    = (Ok (Some false), Sample.world).
Proof.
  destruct (properties_follow_client_state (Sample.quiet OPENING)
              Sample.world 0 Sample.cover OPENING
              sample_cover_stored eq_refl) as (Ho & Hc & Hd & _).
  split; [exact sample_cover_stored |].
  split; [exact Ho |]. split; [exact Hc |].
  apply Hd. discriminate.
Defined.

Lemma is_closed_none_iff_no_sensor_witness :
  store Sample.world !! 0%nat = Some (ORemootioCover Sample.cover)
  ∧ ∃ r : option bool,
      is_closed (Sample.quiet CLOSED) 0 Sample.world = (Ok r, Sample.world)
      ∧ r = Some true.
Proof.
  split; [exact sample_cover_stored |].
  destruct (is_closed_none_iff_no_sensor (Sample.quiet CLOSED) Sample.world 0
              Sample.cover sample_cover_stored) as (r & Hr & _ & Hsome).
  exists r. split; [exact Hr |]. apply Hsome. discriminate.
Defined.

Lemma indications_exclusive_witness :
  store Sample.world !! 0%nat = Some (ORemootioCover Sample.cover)
  ∧ ∃ (o c : bool) (d : option bool),
      is_opening (Sample.quiet CLOSING) 0 Sample.world = (Ok o, Sample.world)
      ∧ is_closing (Sample.quiet CLOSING) 0 Sample.world
        = (Ok c, Sample.world)
      ∧ is_closed (Sample.quiet CLOSING) 0 Sample.world = (Ok d, Sample.world)
      ∧ (Nat.b2n o + Nat.b2n c + Nat.b2n (bool_decide (d = Some true)) ≤ 1)%nat.
Proof.
  split; [exact sample_cover_stored |].
  exact (indications_exclusive (Sample.quiet CLOSING) Sample.world 0
           Sample.cover sample_cover_stored).
Defined.

Lemma command_calls_one_client_method_witness :
  store Sample.world !! 0%nat = Some (ORemootioCover Sample.cover)
  ∧ async_open_cover (Sample.quiet CLOSED) 0 ∅ Sample.world
    = (Ok tt, mkWorld (store Sample.world) [trigger_open 7] tt)
  ∧ async_close_cover (Sample.quiet CLOSED) 0 ∅ Sample.world
    = (Ok tt, mkWorld (store Sample.world) [trigger_close 7] tt).
Proof.
  split; [exact sample_cover_stored |].
  exact (command_calls_one_client_method (Sample.quiet CLOSED) Sample.world 0
           Sample.cover ∅ sample_cover_stored).
Defined.

Lemma client_error_propagates_witness :
  store Sample.world !! 0%nat = Some (ORemootioCover Sample.cover)
  ∧ async_update (Sample.failing Sample.connection_lost) 0 Sample.world
    = (Raise Sample.connection_lost,
       mkWorld (store Sample.world) [trigger_state_update 7] tt)
  ∧ async_open_cover (Sample.failing Sample.connection_lost) 0 ∅ Sample.world
    = (Raise Sample.connection_lost,
       mkWorld (store Sample.world) [trigger_open 7] tt)
  ∧ async_close_cover (Sample.failing Sample.connection_lost) 0 ∅ Sample.world
    = (Raise Sample.connection_lost,
       mkWorld (store Sample.world) [trigger_close 7] tt).
Proof.
  destruct (client_error_propagates (Sample.failing Sample.connection_lost)
              Sample.world 0 Sample.cover Sample.connection_lost tt
              sample_cover_stored) as (Hu & Ho & Hc).
  split; [exact sample_cover_stored |].
  split; [apply Hu; reflexivity |].
  split; [apply Ho; reflexivity | apply Hc; reflexivity].
Defined.

Lemma state_change_writes_ha_state_witness :
  store Sample.world !! 1%nat = Some (ORemootioCoverStateChangeListener 0)
  ∧ RemootioCoverStateChangeListener_execute (Sample.quiet CLOSED) 1 7
      (mkStateChange OPENING (OtherState "OPEN")) Sample.world
    = (Ok tt, mkWorld (store Sample.world) [async_write_ha_state 0] tt).
Proof.
  split; [exact sample_state_listener_stored |].
  exact (state_change_writes_ha_state (Sample.quiet CLOSED) Sample.world 1 0 7
           (mkStateChange OPENING (OtherState "OPEN"))
           sample_state_listener_stored).
Defined.

Lemma other_event_is_ignored_witness :
  type (mkEvent (OtherEventType "RELAY_TRIGGER") VNone) ≠ LEFT_OPEN
  ∧ RemootioCoverEventListener_execute Sample.const (Sample.quiet CLOSED) 2 7
      (mkEvent (OtherEventType "RELAY_TRIGGER") VNone) Sample.world
    = (Ok tt, Sample.world).
Proof.
  assert (type (mkEvent (OtherEventType "RELAY_TRIGGER") VNone) ≠ LEFT_OPEN)
    as Hne by (simpl; discriminate).
  split; [exact Hne |].
  exact (other_event_is_ignored Sample.const (Sample.quiet CLOSED)
           Sample.world 2 7 _ Hne).
Defined.

Lemma left_open_fires_one_event_witness :
  ∃ event_data : gmap string PyVal,
    calls (RemootioCoverEventListener_execute Sample.const
             (Sample.quiet (OtherState "OPEN")) 2 7
             (mkEvent LEFT_OPEN VNone) Sample.world).2
    = [bus_async_fire 0 "remootio_left_open" event_data]
    ∧ size event_data = 3%nat
    ∧ event_data !! "entity_id" = Some (VStr "cover.garage")
    ∧ event_data !! "serial_number" = Some (VStr "SN0042")
    ∧ event_data !! "name" = Some (VStr "Garage").
Proof.
  destruct (left_open_fires_one_event Sample.const
              (Sample.quiet (OtherState "OPEN")) Sample.world 2 0 Sample.cover
              7 (mkEvent LEFT_OPEN VNone)
              sample_event_listener_stored sample_cover_stored eq_refl)
    as (d & Hrun & _ & Hsize & He & Hs & Hn).
  - simpl. discriminate.
  - simpl. discriminate.
  - exists d. split; [by rewrite Hrun |]. by split_and!.
Defined.

Lemma activation_subscribes_then_refreshes_witness :
  store Sample.world !! 0%nat = Some (ORemootioCover Sample.cover)
  ∧ (async_added_to_hass (Sample.quiet CLOSED) 0 Sample.world).1 = Ok tt
  ∧ calls (async_added_to_hass (Sample.quiet CLOSED) 0 Sample.world).2
    = [Listener_init 3; add_state_change_listener 7 3;
       Listener_init 4; add_event_listener 7 4;
       trigger_state_update 7]
  ∧ store (async_added_to_hass (Sample.quiet CLOSED) 0 Sample.world).2
    = <[4%nat := ORemootioCoverEventListener 0]>
        (<[3%nat := ORemootioCoverStateChangeListener 0]>
           (store Sample.world)).
Proof.
  destruct (activation_subscribes_then_refreshes (Sample.quiet CLOSED)
              Sample.world 0 Sample.cover 3 4 VNone VNone VNone VNone
              tt tt tt tt sample_cover_stored)
    as (Hrun & _); try (vm_compute; reflexivity).
  split; [exact sample_cover_stored |].
  rewrite Hrun. split_and!; reflexivity.
Defined.

Lemma setup_registers_one_entity_witness :
  ConfigEntry.data Sample.config_entry !! "serial_number"
  = Some (VStr "SN0042")
  ∧ ConfigEntry.data Sample.config_entry !! "device_class"
    = Some (VStr "garage")
  ∧ (async_setup_entry Sample.const (Sample.quiet CLOSED) Sample.hass
       Sample.config_entry 5 Sample.world).1 = Ok tt
  ∧ calls (async_setup_entry Sample.const (Sample.quiet CLOSED) Sample.hass
             Sample.config_entry 5 Sample.world).2
    = [as_dict Sample.config_entry;
       LOGGER_debug setup_message VNone "remootio" "e1"
         {["remootio_client" := VClient 7]};
       add_entities 5 [3%nat]]
  ∧ store (async_setup_entry Sample.const (Sample.quiet CLOSED) Sample.hass
             Sample.config_entry 5 Sample.world).2
    = <[3%nat := ORemootioCover Sample.cover]> (store Sample.world).
Proof.
  assert (ConfigEntry.data Sample.config_entry !! "serial_number"
          = Some (VStr "SN0042")) as Hserial by (vm_compute; reflexivity).
  assert (ConfigEntry.data Sample.config_entry !! "device_class"
          = Some (VStr "garage")) as Hclass by (vm_compute; reflexivity).
  destruct (setup_registers_one_entity Sample.const (Sample.quiet CLOSED)
              Sample.world Sample.hass Sample.config_entry 5
              (VStr "SN0042") (VStr "garage") 7
              {["e1" := {["remootio_client" := VClient 7]}]}
              {["remootio_client" := VClient 7]} VNone VNone tt tt
              Hserial Hclass)
    as (Hrun & _); try (vm_compute; reflexivity).
  split; [exact Hserial |]. split; [exact Hclass |].
  rewrite Hrun. split_and!; reflexivity.
Defined.

(** ** What no operation does to the store and the log *)

Section Frame.

Context {X : Type} (const : Const) (env : Env X).

Lemma keeps_store_ret {A : Type} (a : A) : keeps_store (mret a : @M X A).
Proof. by intros w. Qed.

Lemma keeps_store_raise {A : Type} (e : Exn) : keeps_store (raise e : @M X A).
Proof. by intros w. Qed.

Lemma keeps_store_read {A : Type} (f : X → A) : keeps_store (read f).
Proof. by intros w. Qed.

Lemma keeps_store_getattr {A : Type} (attr : string) (sel : Obj → option A)
    (self : loc) :
  keeps_store (@getattr X A attr sel self).
Proof. intros w. unfold getattr. by destruct (store w !! self ≫= sel). Qed.

Lemma keeps_store_subscript {V : Type} (d : gmap string V) (k : string) :
  keeps_store (@subscript X V d k).
Proof. intros w. unfold subscript. by destruct (d !! k). Qed.

Lemma keeps_store_call (c : Call) : keeps_store (call env c).
Proof. intros w. apply call_frame. Qed.

Lemma keeps_store_bind {A B : Type} (m : @M X A) (f : A → @M X B) :
  keeps_store m → (∀ a, keeps_store (f a)) → keeps_store (m ≫= f).
Proof.
  intros Hm Hf w. unfold mbind, M_bind.
  specialize (Hm w). destruct (m w) as [[a|e] w1]; simpl in *.
  - by rewrite Hf.
  - done.
Qed.

Lemma grows_ret {A : Type} (a : A) : grows (mret a : @M X A).
Proof. by intros w. Qed.

Lemma grows_raise {A : Type} (e : Exn) : grows (raise e : @M X A).
Proof. by intros w. Qed.

Lemma grows_read {A : Type} (f : X → A) : grows (read f).
Proof. by intros w. Qed.

Lemma grows_getattr {A : Type} (attr : string) (sel : Obj → option A)
    (self : loc) :
  grows (@getattr X A attr sel self).
Proof. intros w. unfold getattr. by destruct (store w !! self ≫= sel). Qed.

Lemma grows_subscript {V : Type} (d : gmap string V) (k : string) :
  grows (@subscript X V d k).
Proof. intros w. unfold subscript. by destruct (d !! k). Qed.

Lemma grows_call (c : Call) : grows (call env c).
Proof.
  intros w. destruct (call_frame env c w) as [Hs Hc].
  rewrite Hs, Hc. split; [done | by apply prefix_app_r].
Qed.

Lemma grows_alloc (o : Obj) : grows (@alloc X o).
Proof.
  intros w. split; [| done]. simpl.
  apply insert_subseteq, not_elem_of_dom, is_fresh.
Qed.

Lemma grows_bind {A B : Type} (m : @M X A) (f : A → @M X B) :
  grows m → (∀ a, grows (f a)) → grows (m ≫= f).
Proof.
  intros Hm Hf w. unfold mbind, M_bind.
  destruct (Hm w) as [Hs Hc]. destruct (m w) as [[a|e] w1]; simpl in *.
  - destruct (Hf a w1) as [Hs' Hc']. split; by etrans.
  - done.
Qed.

End Frame.

Create HintDb frame discriminated.

#[global] Hint Resolve keeps_store_ret keeps_store_raise keeps_store_read
  keeps_store_getattr keeps_store_subscript keeps_store_call
  keeps_store_bind : frame.

Create HintDb growth discriminated.

#[global] Hint Resolve grows_ret grows_raise grows_read grows_getattr
  grows_subscript grows_call grows_alloc grows_bind : growth.

Ltac unfold_operations :=
  unfold async_setup_entry, async_added_to_hass, async_update,
    async_open_cover, async_close_cover, is_opening, is_closing, is_closed,
    RemootioCoverStateChangeListener_execute,
    RemootioCoverEventListener_execute, RemootioCover_init,
    RemootioCoverStateChangeListener_init, RemootioCoverEventListener_init,
    remootio_client_of, owner, unique_id, entity_id, entity_name, state.

Ltac keeps_store_steps :=
  repeat match goal with
  | |- keeps_store (_ ≫= _) => apply keeps_store_bind
  | |- keeps_store (if ?b then _ else _) => destruct b
  | |- ∀ _, _ => intro
  | |- _ => solve [auto with frame]
  end.

Ltac grows_steps :=
  repeat match goal with
  | |- grows (_ ≫= _) => apply grows_bind
  | |- grows (if ?b then _ else _) => destruct b
  | |- grows (match ?v with _ => _ end) => destruct v
  | |- ∀ _, _ => intro
  | |- _ => solve [auto with growth]
  end.

Section Untouched.

Context {X : Type} (const : Const) (env : Env X).

(** Reading the three state properties contacts nobody and changes
    nothing, whatever [self] is and whatever state the client is in. *)
Theorem state_properties_change_nothing (w : World X) (self : loc) :
  (is_opening env self w).2 = w
  ∧ (is_closing env self w).2 = w
  ∧ (is_closed env self w).2 = w.
Proof.
  unfold_operations. unfold mbind, M_bind, getattr, read.
  destruct (store w !! self ≫= _) as [client|]; simpl; [| done].
  split_and!; [done | done |]. case_bool_decide; [done |].
  by destruct (store w !! self ≫= _).
Qed.

(** Commands, refresh, the state properties and both listeners create no
    object and change none, whatever they are run on and whatever the
    collaborators answer. *)
Theorem only_setup_and_activation_create_objects (self : loc)
    (kwargs : gmap string PyVal) (client : handle) (change : StateChange)
    (event : Event) :
  keeps_store (async_update env self)
  ∧ keeps_store (async_open_cover env self kwargs)
  ∧ keeps_store (async_close_cover env self kwargs)
  ∧ keeps_store (is_opening env self)
  ∧ keeps_store (is_closing env self)
  ∧ keeps_store (is_closed env self)
  ∧ keeps_store (RemootioCoverStateChangeListener_execute env self client change)
  ∧ keeps_store
      (RemootioCoverEventListener_execute const env self client event).
Proof. unfold_operations. split_and!; keeps_store_steps. Qed.

(** No operation of the file removes or replaces an object or rewrites the
    log: what was stored is still stored as it was, and the calls made
    before are the beginning of the log afterwards. *)
Theorem operations_grow_store_and_log (hass : HomeAssistant.t)
    (config_entry : ConfigEntry.t) (async_add_entities : AddEntitiesCallback)
    (self : loc) (kwargs : gmap string PyVal) (client : handle)
    (change : StateChange) (event : Event) :
  grows (async_setup_entry const env hass config_entry async_add_entities)
  ∧ grows (async_added_to_hass env self)
  ∧ grows (async_update env self)
  ∧ grows (async_open_cover env self kwargs)
  ∧ grows (async_close_cover env self kwargs)
  ∧ grows (RemootioCoverStateChangeListener_execute env self client change)
  ∧ grows (RemootioCoverEventListener_execute const env self client event).
Proof. unfold_operations. unfold subscript. split_and!; grows_steps. Qed.

End Untouched.

(** ** Construction of the entity *)

Section Construction.

Context {X : Type} (const : Const) (env : Env X).

(** [RemootioCover.__init__], evaluated on a client. *)
Lemma RemootioCover_init_client (w : World X) (unique : PyVal)
    (title : string) (device_class : PyVal) (client : handle) :
  RemootioCover_init const env unique title device_class (VClient client) w
  = (Ok (fresh (dom (store w))),
     mkWorld
       (<[fresh (dom (store w)) :=
            ORemootioCover
              {| _attr_unique_id := unique;
                 _attr_device_class := device_class;
                 _remootio_client := client;
                 _attr_device_info :=
                   {| identifiers := [(DOMAIN const, unique)];
                      name := title;
                      manufacturer := "Assemblabs Ltd";
                      model := "Remootio 3";
                      sw_version :=
                        str_of_int
                          (RemootioClient_api_version env (ext w) client) |}
              |}]> (store w))
       (calls w) (ext w)).
Proof. reflexivity. Qed.

(** Building an entity on a client calls nobody and touches no object that
    exists; the new entity has an identity of its own, and reading its
    unique id, its client and its device info gives back what it was built
    from, with the client's API version in decimal as software version. *)
Theorem new_cover_reads_back (w : World X) (unique : PyVal) (title : string)
    (device_class : PyVal) (client : handle) :
  ∃ (self : loc) (w' : World X),
    RemootioCover_init const env unique title device_class (VClient client) w
    = (Ok self, w')
    ∧ store w !! self = None
    ∧ (∀ l : loc, l ≠ self → store w' !! l = store w !! l)
    ∧ calls w' = calls w
    ∧ ext w' = ext w
    ∧ unique_id self w' = (Ok unique, w')
    ∧ remootio_client_of self w' = (Ok client, w')
    ∧ getattr "_attr_device_class"
        (λ o, _attr_device_class <$> as_cover o) self w'
      = (Ok device_class, w')
    ∧ getattr "_attr_device_info"
        (λ o, _attr_device_info <$> as_cover o) self w'
      = (Ok {| identifiers := [(DOMAIN const, unique)];
               name := title;
               manufacturer := "Assemblabs Ltd";
               model := "Remootio 3";
               sw_version :=
                 str_of_int (RemootioClient_api_version env (ext w) client) |},
         w').
Proof.
  eexists _, _. split; [apply RemootioCover_init_client |].
  split; [apply not_elem_of_dom, is_fresh |].
  split; [intros l Hl; simpl; by rewrite lookup_insert_ne |].
  split; [done |]. split; [done |].
  split_and!; eapply getattr_ok; try (simpl; apply lookup_insert_eq); done.
Qed.

(** On [None], a bool, an int or a str in place of the client the read of
    [api_version] raises. *)
Lemma RemootioCover_init_not_client (w : World X) (unique : PyVal)
    (title : string) (device_class : PyVal) (remootio_client : PyVal) :
  remootio_client = VNone ∨ (∃ b, remootio_client = VBool b)
  ∨ (∃ z, remootio_client = VInt z) ∨ (∃ s, remootio_client = VStr s) →
  RemootioCover_init const env unique title device_class remootio_client w
  = (Raise (AttributeError "api_version"), w).
Proof. intros [-> | [[b ->] | [[z ->] | [s ->]]]]; reflexivity. Qed.

End Construction.

(** ** Setup on incomplete input *)

Section SetupCases.

Context {X : Type} (const : Const) (env : Env X).

(** Setup up to its debug line, when nothing fails until there. *)
Lemma setup_debug_line (w : World X) (hass : HomeAssistant.t)
    (config_entry : ConfigEntry.t) (async_add_entities : AddEntitiesCallback)
    (by_domain : gmap string (gmap string PyVal))
    (shared : gmap string PyVal) (v1 v2 : PyVal) (x1 x2 : X) :
  respond env (as_dict config_entry) (ext w) = (Ok v1, x1) →
  HomeAssistant.data hass !! DOMAIN const = Some by_domain →
  by_domain !! ConfigEntry.entry_id config_entry = Some shared →
  respond env
    (LOGGER_debug setup_message v1 (DOMAIN const)
       (ConfigEntry.entry_id config_entry) shared) x1
  = (Ok v2, x2) →
  async_setup_entry const env hass config_entry async_add_entities w
  = (serial_number ← subscript (ConfigEntry.data config_entry)
                       (CONF_SERIAL_NUMBER const);
     device_class ← subscript (ConfigEntry.data config_entry)
                      CONF_DEVICE_CLASS;
     remootio_client ← subscript shared (REMOOTIO_CLIENT const);
     cover ← RemootioCover_init const env serial_number
               (ConfigEntry.title config_entry) device_class remootio_client;
     call env (add_entities async_add_entities [cover]);;
     mret tt) (logged const w config_entry v1 shared x2).
Proof.
  intros Hdict Hdomain Hentry Hlog.
  unfold async_setup_entry.
  rewrite (bind_ok _ _ _ _ _ (call_ok env _ w v1 x1 Hdict)).
  rewrite (bind_ok _ _ _ _ _ (subscript_ok _ _ _ _ Hdomain)).
  rewrite (bind_ok _ _ _ _ _ (subscript_ok _ _ _ _ Hentry)).
  rewrite (bind_ok _ _ _ _ _
             (call_ok env _
                (mkWorld (store w) (calls w ++ [as_dict config_entry]) x1)
                v2 x2 Hlog)).
  unfold logged. cbn [store calls ext]. rewrite <- app_assoc. simpl app.
  destruct (ConfigEntry.data config_entry !! CONF_SERIAL_NUMBER const)
    as [serial|] eqn:Hs.
  2: { by rewrite !(bind_raise _ _ _ _ _ (subscript_missing _ _ _ Hs)). }
  rewrite !(bind_ok _ _ _ _ _ (subscript_ok _ _ _ _ Hs)).
  destruct (ConfigEntry.data config_entry !! CONF_DEVICE_CLASS)
    as [class|] eqn:Hc.
  2: { by rewrite !(bind_raise _ _ _ _ _ (subscript_missing _ _ _ Hc)). }
  rewrite !(bind_ok _ _ _ _ _ (subscript_ok _ _ _ _ Hc)).
  rewrite (bind_ok _ _ _ _ _ (subscript_ok _ _ _ _ Hdomain)).
  by rewrite (bind_ok _ _ _ _ _ (subscript_ok _ _ _ _ Hentry)).
Qed.

(** When [hass.data] has nothing under the domain, or nothing under the
    entry's id there, setup raises KeyError with the key it missed while it
    evaluates the arguments of the debug line: [as_dict] has been called,
    the debug line is not written, no entity is built and none registered. *)
Theorem setup_needs_shared_storage (w : World X) (hass : HomeAssistant.t)
    (config_entry : ConfigEntry.t) (async_add_entities : AddEntitiesCallback)
    (v1 : PyVal) (x1 : X) :
  respond env (as_dict config_entry) (ext w) = (Ok v1, x1) →
  (HomeAssistant.data hass !! DOMAIN const = None →
   async_setup_entry const env hass config_entry async_add_entities w
   = (Raise (KeyError (DOMAIN const)),
      mkWorld (store w) (calls w ++ [as_dict config_entry]) x1))
  ∧ (∀ by_domain : gmap string (gmap string PyVal),
       HomeAssistant.data hass !! DOMAIN const = Some by_domain →
       by_domain !! ConfigEntry.entry_id config_entry = None →
       async_setup_entry const env hass config_entry async_add_entities w
       = (Raise (KeyError (ConfigEntry.entry_id config_entry)),
          mkWorld (store w) (calls w ++ [as_dict config_entry]) x1)).
Proof.
  intros Hdict. unfold async_setup_entry.
  rewrite (bind_ok _ _ _ _ _ (call_ok env _ w v1 x1 Hdict)).
  split.
  - intros Hdomain.
    by rewrite (bind_raise _ _ _ _ _ (subscript_missing _ _ _ Hdomain)).
  - intros by_domain Hdomain Hentry.
    rewrite (bind_ok _ _ _ _ _ (subscript_ok _ _ _ _ Hdomain)).
    by rewrite (bind_raise _ _ _ _ _ (subscript_missing _ _ _ Hentry)).
Qed.

(** When the entry's data lacks the serial number, setup raises KeyError
    with the serial number's key, also when the device class is missing
    too; when only the device class is missing, KeyError with its key. The
    debug line is written by then; no entity is built and none registered. *)
Theorem setup_needs_config_values (w : World X) (hass : HomeAssistant.t)
    (config_entry : ConfigEntry.t) (async_add_entities : AddEntitiesCallback)
    (by_domain : gmap string (gmap string PyVal))
    (shared : gmap string PyVal) (v1 v2 : PyVal) (x1 x2 : X) :
  respond env (as_dict config_entry) (ext w) = (Ok v1, x1) →
  HomeAssistant.data hass !! DOMAIN const = Some by_domain →
  by_domain !! ConfigEntry.entry_id config_entry = Some shared →
  respond env
    (LOGGER_debug setup_message v1 (DOMAIN const)
       (ConfigEntry.entry_id config_entry) shared) x1
  = (Ok v2, x2) →
  (ConfigEntry.data config_entry !! CONF_SERIAL_NUMBER const = None →
   async_setup_entry const env hass config_entry async_add_entities w
   = (Raise (KeyError (CONF_SERIAL_NUMBER const)),
      logged const w config_entry v1 shared x2))
  ∧ (is_Some (ConfigEntry.data config_entry !! CONF_SERIAL_NUMBER const) →
     ConfigEntry.data config_entry !! CONF_DEVICE_CLASS = None →
     async_setup_entry const env hass config_entry async_add_entities w
     = (Raise (KeyError CONF_DEVICE_CLASS),
        logged const w config_entry v1 shared x2)).
Proof.
  intros Hdict Hdomain Hentry Hlog.
  rewrite (setup_debug_line w hass config_entry async_add_entities by_domain
             shared v1 v2 x1 x2 Hdict Hdomain Hentry Hlog).
  split.
  - intros Hserial.
    by rewrite (bind_raise _ _ _ _ _ (subscript_missing _ _ _ Hserial)).
  - intros [serial Hserial] Hclass.
    rewrite (bind_ok _ _ _ _ _ (subscript_ok _ _ _ _ Hserial)).
    by rewrite (bind_raise _ _ _ _ _ (subscript_missing _ _ _ Hclass)).
Qed.

(** When the entry's dict in [hass.data] has no client, setup raises
    KeyError with the client's key; when it holds [None] there, setup
    raises AttributeError at the read of [api_version]. Either way no
    entity is built and none registered. *)
Theorem setup_needs_client (w : World X) (hass : HomeAssistant.t)
    (config_entry : ConfigEntry.t) (async_add_entities : AddEntitiesCallback)
    (by_domain : gmap string (gmap string PyVal))
    (shared : gmap string PyVal) (v1 v2 : PyVal) (x1 x2 : X) :
  respond env (as_dict config_entry) (ext w) = (Ok v1, x1) →
  HomeAssistant.data hass !! DOMAIN const = Some by_domain →
  by_domain !! ConfigEntry.entry_id config_entry = Some shared →
  respond env
    (LOGGER_debug setup_message v1 (DOMAIN const)
       (ConfigEntry.entry_id config_entry) shared) x1
  = (Ok v2, x2) →
  is_Some (ConfigEntry.data config_entry !! CONF_SERIAL_NUMBER const) →
  is_Some (ConfigEntry.data config_entry !! CONF_DEVICE_CLASS) →
  (shared !! REMOOTIO_CLIENT const = None →
   async_setup_entry const env hass config_entry async_add_entities w
   = (Raise (KeyError (REMOOTIO_CLIENT const)),
      logged const w config_entry v1 shared x2))
  ∧ (shared !! REMOOTIO_CLIENT const = Some VNone →
     async_setup_entry const env hass config_entry async_add_entities w
     = (Raise (AttributeError "api_version"),
        logged const w config_entry v1 shared x2)).
Proof.
  intros Hdict Hdomain Hentry Hlog [serial Hserial] [class Hclass].
  rewrite (setup_debug_line w hass config_entry async_add_entities by_domain
             shared v1 v2 x1 x2 Hdict Hdomain Hentry Hlog).
  rewrite (bind_ok _ _ _ _ _ (subscript_ok _ _ _ _ Hserial)).
  rewrite (bind_ok _ _ _ _ _ (subscript_ok _ _ _ _ Hclass)).
  split; intros Hclient.
  - by rewrite (bind_raise _ _ _ _ _ (subscript_missing _ _ _ Hclient)).
  - rewrite (bind_ok _ _ _ _ _ (subscript_ok _ _ _ _ Hclient)).
    rewrite (bind_raise _ _ _ (logged const w config_entry v1 shared x2)
               (AttributeError "api_version")); [done |].
    apply RemootioCover_init_not_client. by left.
Qed.

(** All the ways setup can go: it raises before an entity is built, or it
    builds one entity and hands it to the host. *)
Lemma setup_outcome (w : World X) (hass : HomeAssistant.t)
    (config_entry : ConfigEntry.t) (async_add_entities : AddEntitiesCallback) :
  (∃ (e : Exn) (cs : list Call) (x : X),
     async_setup_entry const env hass config_entry async_add_entities w
     = (Raise e, mkWorld (store w) (calls w ++ cs) x)
     ∧ Forall (λ c, is_add_entities c = false) cs)
  ∨ (∃ (serial class : PyVal) (client : handle)
       (by_domain : gmap string (gmap string PyVal))
       (shared : gmap string PyVal) (v : PyVal) (x : X),
       ConfigEntry.data config_entry !! CONF_SERIAL_NUMBER const = Some serial
       ∧ ConfigEntry.data config_entry !! CONF_DEVICE_CLASS = Some class
       ∧ HomeAssistant.data hass !! DOMAIN const = Some by_domain
       ∧ by_domain !! ConfigEntry.entry_id config_entry = Some shared
       ∧ shared !! REMOOTIO_CLIENT const = Some (VClient client)
       ∧ async_setup_entry const env hass config_entry async_add_entities w
         = (call env (add_entities async_add_entities [fresh (dom (store w))]);;
            mret tt)
             (RemootioCover_init const env serial
                (ConfigEntry.title config_entry) class (VClient client)
                (logged const w config_entry v shared x)).2).
Proof.
  destruct (respond env (as_dict config_entry) (ext w)) as [[v1|e] x1] eqn:Hdict.
  2: { left. exists e, [as_dict config_entry], x1. split; [| by repeat constructor].
       unfold async_setup_entry.
       by rewrite (bind_raise _ _ _ _ _ (call_raise env _ w e x1 Hdict)). }
  destruct (HomeAssistant.data hass !! DOMAIN const) as [by_domain|] eqn:Hdomain.
  2: { left. eexists _, [as_dict config_entry], x1.
       split; [| by repeat constructor].
       unfold async_setup_entry.
       rewrite (bind_ok _ _ _ _ _ (call_ok env _ w v1 x1 Hdict)).
       by rewrite (bind_raise _ _ _ _ _ (subscript_missing _ _ _ Hdomain)). }
  destruct (by_domain !! ConfigEntry.entry_id config_entry) as [shared|]
    eqn:Hentry.
  2: { left. eexists _, [as_dict config_entry], x1.
       split; [| by repeat constructor].
       unfold async_setup_entry.
       rewrite (bind_ok _ _ _ _ _ (call_ok env _ w v1 x1 Hdict)).
       rewrite (bind_ok _ _ _ _ _ (subscript_ok _ _ _ _ Hdomain)).
       by rewrite (bind_raise _ _ _ _ _ (subscript_missing _ _ _ Hentry)). }
  destruct (respond env
              (LOGGER_debug setup_message v1 (DOMAIN const)
                 (ConfigEntry.entry_id config_entry) shared) x1)
    as [[v2|e] x2] eqn:Hlog.
  2: { left. eexists e, _, x2. split.
       - unfold async_setup_entry.
         rewrite (bind_ok _ _ _ _ _ (call_ok env _ w v1 x1 Hdict)).
         rewrite (bind_ok _ _ _ _ _ (subscript_ok _ _ _ _ Hdomain)).
         rewrite (bind_ok _ _ _ _ _ (subscript_ok _ _ _ _ Hentry)).
         rewrite (bind_raise _ _ _ _ _
                    (call_raise env _
                       (mkWorld (store w) (calls w ++ [as_dict config_entry])
                          x1) e x2 Hlog)).
         cbn [store calls ext]. by rewrite <- app_assoc.
       - by repeat constructor. }
  rewrite (setup_debug_line w hass config_entry async_add_entities by_domain
             shared v1 v2 x1 x2 Hdict Hdomain Hentry Hlog).
  assert (Forall (λ c, is_add_entities c = false)
            [as_dict config_entry;
             LOGGER_debug setup_message v1 (DOMAIN const)
               (ConfigEntry.entry_id config_entry) shared])
    as Hquiet by (by repeat constructor).
  destruct (ConfigEntry.data config_entry !! CONF_SERIAL_NUMBER const)
    as [serial|] eqn:Hserial.
  2: { left. eexists _, _, x2. split; [| exact Hquiet].
       by rewrite (bind_raise _ _ _ _ _ (subscript_missing _ _ _ Hserial)). }
  rewrite (bind_ok _ _ _ _ _ (subscript_ok _ _ _ _ Hserial)).
  destruct (ConfigEntry.data config_entry !! CONF_DEVICE_CLASS)
    as [class|] eqn:Hclass.
  2: { left. eexists _, _, x2. split; [| exact Hquiet].
       by rewrite (bind_raise _ _ _ _ _ (subscript_missing _ _ _ Hclass)). }
  rewrite (bind_ok _ _ _ _ _ (subscript_ok _ _ _ _ Hclass)).
  destruct (shared !! REMOOTIO_CLIENT const) as [remootio_client|] eqn:Hclient.
  2: { left. eexists _, _, x2. split; [| exact Hquiet].
       by rewrite (bind_raise _ _ _ _ _ (subscript_missing _ _ _ Hclient)). }
  rewrite (bind_ok _ _ _ _ _ (subscript_ok _ _ _ _ Hclient)).
  destruct remootio_client as [| b | z | s' | client | id];
    try (left; eexists _, _, x2; split; [reflexivity | exact Hquiet]).
  right. exists serial, class, client, by_domain, shared, v1, x2.
  split_and!; try done.
Qed.

(** The outcome of setup once the entity is built. *)
Lemma setup_registration (w1 : World X) (async_add_entities : AddEntitiesCallback)
    (self : loc) :
  (call env (add_entities async_add_entities [self]);; mret tt) w1
  = (match (respond env (add_entities async_add_entities [self]) (ext w1)).1
     with
     | Ok _ => Ok tt
     | Raise e => Raise e
     end,
     mkWorld (store w1) (calls w1 ++ [add_entities async_add_entities [self]])
       (respond env (add_entities async_add_entities [self]) (ext w1)).2).
Proof.
  unfold mbind, M_bind, call.
  by destruct (respond env _ (ext w1)) as [[v|e] x].
Qed.

(** Whatever it is given and whatever the collaborators answer, setup
    either raises with the store as it was and without a call of the
    add-entities callback, or it adds one new entity to the store and calls
    the callback once, as its last call, with exactly that entity: it never
    registers twice and leaves no entity behind that it did not hand over. *)
Theorem setup_registers_what_it_builds (w : World X) (hass : HomeAssistant.t)
    (config_entry : ConfigEntry.t) (async_add_entities : AddEntitiesCallback) :
  (∃ (e : Exn) (cs : list Call),
     (async_setup_entry const env hass config_entry async_add_entities w).1
     = Raise e
     ∧ store (async_setup_entry const env hass config_entry
                async_add_entities w).2 = store w
     ∧ calls (async_setup_entry const env hass config_entry
                async_add_entities w).2 = calls w ++ cs
     ∧ Forall (λ c, is_add_entities c = false) cs)
  ∨ (∃ (cover : RemootioCover) (cs : list Call),
       store w !! fresh (dom (store w)) = None
       ∧ store (async_setup_entry const env hass config_entry
                  async_add_entities w).2
         = <[fresh (dom (store w)) := ORemootioCover cover]> (store w)
       ∧ calls (async_setup_entry const env hass config_entry
                  async_add_entities w).2
         = calls w ++ cs
           ++ [add_entities async_add_entities [fresh (dom (store w))]]
       ∧ Forall (λ c, is_add_entities c = false) cs).
Proof.
  destruct (setup_outcome w hass config_entry async_add_entities)
    as [(e & cs & x & Hrun & Hcs)
       | (serial & class & client & by_domain & shared & v & x & _ & _ & _ & _
          & _ & Hrun)].
  - left. exists e, cs. by rewrite Hrun.
  - right. rewrite Hrun, RemootioCover_init_client, setup_registration.
    unfold logged. cbn [store calls ext snd].
    eexists _, [as_dict config_entry;
                LOGGER_debug setup_message v (DOMAIN const)
                  (ConfigEntry.entry_id config_entry) shared].
    split; [apply not_elem_of_dom, is_fresh |].
    split; [reflexivity |].
    split; [by rewrite <- !app_assoc | by repeat constructor].
Qed.

(** When setup returns, the entity it registered is bound to the client
    that [hass.data] holds for the entry: its unique id is the entry's
    serial number, and its commands and its refresh go to that client. *)
Theorem registered_entity_uses_shared_client (w : World X)
    (hass : HomeAssistant.t) (config_entry : ConfigEntry.t)
    (async_add_entities : AddEntitiesCallback) (w' : World X) :
  async_setup_entry const env hass config_entry async_add_entities w
  = (Ok tt, w') →
  ∃ (self : loc) (serial : PyVal) (client : handle)
    (by_domain : gmap string (gmap string PyVal))
    (shared : gmap string PyVal),
    last (calls w') = Some (add_entities async_add_entities [self])
    ∧ ConfigEntry.data config_entry !! CONF_SERIAL_NUMBER const = Some serial
    ∧ HomeAssistant.data hass !! DOMAIN const = Some by_domain
    ∧ by_domain !! ConfigEntry.entry_id config_entry = Some shared
    ∧ shared !! REMOOTIO_CLIENT const = Some (VClient client)
    ∧ unique_id self w' = (Ok serial, w')
    ∧ (∀ kwargs,
         calls (async_open_cover env self kwargs w').2
         = calls w' ++ [trigger_open client])
    ∧ (∀ kwargs,
         calls (async_close_cover env self kwargs w').2
         = calls w' ++ [trigger_close client])
    ∧ calls (async_update env self w').2
      = calls w' ++ [trigger_state_update client].
Proof.
  intros Hok.
  destruct (setup_outcome w hass config_entry async_add_entities)
    as [(e & cs & x & Hrun & _)
       | (serial & class & client & by_domain & shared & v & x & Hserial & _
          & Hdomain & Hentry & Hclient & Hrun)].
  { rewrite Hrun in Hok. discriminate Hok. }
  rewrite Hrun, RemootioCover_init_client, setup_registration in Hok.
  injection Hok as _ Hw'. cbn [store calls ext snd] in Hw'.
  set (self := fresh (dom (store w))) in *.
  assert (∃ cov, store w' !! self = Some (ORemootioCover cov)
                 ∧ _attr_unique_id cov = serial
                 ∧ _remootio_client cov = client) as (cov & Hs & Hu & Hc).
  { eexists. rewrite <- Hw'. cbn [store].
    split; [apply lookup_insert_eq | done]. }
  exists self, serial, client, by_domain, shared.
  split_and!; try done.
  - rewrite <- Hw'. cbn [calls]. apply last_snoc.
  - rewrite <- Hu. by apply unique_id_cover.
  - intros kwargs. unfold async_open_cover.
    rewrite (delegate env self cov trigger_open w' Hs). by rewrite Hc.
  - intros kwargs. unfold async_close_cover.
    rewrite (delegate env self cov trigger_close w' Hs). by rewrite Hc.
  - unfold async_update.
    rewrite (delegate env self cov trigger_state_update w' Hs). by rewrite Hc.
Qed.

End SetupCases.

(** ** Activation when a collaborator fails, and what comes after it *)

Section ActivationCases.

Context {X : Type} (const : Const) (env : Env X).

(** Activation up to the first subscription. *)
Lemma activation_first_subscription (w : World X) (self : loc)
    (cov : RemootioCover) (v1 : PyVal) (x1 : X) :
  store w !! self = Some (ORemootioCover cov) →
  respond env (Listener_init (fresh (dom (store w)))) (ext w) = (Ok v1, x1) →
  async_added_to_hass env self w
  = (call env (add_state_change_listener (_remootio_client cov)
                 (fresh (dom (store w))));;
     client ← remootio_client_of self;
     l ← RemootioCoverEventListener_init env self;
     call env (add_event_listener client l);;
     async_update env self)
      (mkWorld
         (<[fresh (dom (store w)) := ORemootioCoverStateChangeListener self]>
            (store w))
         (calls w ++ [Listener_init (fresh (dom (store w)))]) x1).
Proof.
  intros Hs H1. unfold async_added_to_hass.
  rewrite (bind_ok _ _ _ _ _ (remootio_client_of_cover self cov w Hs)).
  by rewrite (bind_ok _ _ _ _ _ (StateChangeListener_init_ok env self w v1 x1 H1)).
Qed.

(** Activation from the second listener on. *)
Lemma activation_second_subscription (w1 : World X) (self : loc)
    (cov : RemootioCover) (v3 : PyVal) (x3 : X) :
  store w1 !! self = Some (ORemootioCover cov) →
  respond env (Listener_init (fresh (dom (store w1)))) (ext w1) = (Ok v3, x3) →
  (client ← remootio_client_of self;
   l ← RemootioCoverEventListener_init env self;
   call env (add_event_listener client l);;
   async_update env self) w1
  = (call env (add_event_listener (_remootio_client cov)
                 (fresh (dom (store w1))));;
     async_update env self)
      (mkWorld
         (<[fresh (dom (store w1)) := ORemootioCoverEventListener self]>
            (store w1))
         (calls w1 ++ [Listener_init (fresh (dom (store w1)))]) x3).
Proof.
  intros Hs H3.
  rewrite (bind_ok _ _ _ _ _ (remootio_client_of_cover self cov w1 Hs)).
  by rewrite (bind_ok _ _ _ _ _ (EventListener_init_ok env self w1 v3 x3 H3)).
Qed.

(** An entity stays where it is when an object is created. *)
Lemma cover_stays (s : gmap loc Obj) (self : loc) (cov : RemootioCover)
    (o : Obj) :
  s !! self = Some (ORemootioCover cov) →
  <[fresh (dom s) := o]> s !! self = Some (ORemootioCover cov).
Proof.
  intros Hs. rewrite lookup_insert_ne; [done |].
  intros Heq. apply (is_fresh (dom s)). rewrite Heq.
  apply elem_of_dom. by eexists.
Qed.

(** If the client refuses the first subscription, activation raises what
    the client raised and stops there: no event listener is built or
    subscribed and no state update is requested. If it refuses the second,
    activation raises likewise without a state update, and the first
    subscription stands: nothing is unsubscribed. *)
Theorem activation_stops_at_refused_subscription (w : World X) (self : loc)
    (cov : RemootioCover) (l1 : loc) (v1 : PyVal) (x1 : X) :
  store w !! self = Some (ORemootioCover cov) →
  l1 = fresh (dom (store w)) →
  respond env (Listener_init l1) (ext w) = (Ok v1, x1) →
  (∀ (e : Exn) (x2 : X),
     respond env (add_state_change_listener (_remootio_client cov) l1) x1
     = (Raise e, x2) →
     async_added_to_hass env self w
     = (Raise e,
        mkWorld (<[l1 := ORemootioCoverStateChangeListener self]> (store w))
          (calls w ++
             [Listener_init l1;
              add_state_change_listener (_remootio_client cov) l1]) x2))
  ∧ (∀ (l2 : loc) (v2 v3 : PyVal) (e : Exn) (x2 x3 x4 : X),
       l2 = fresh (dom (<[l1 := ORemootioCoverStateChangeListener self]>
                          (store w))) →
       respond env (add_state_change_listener (_remootio_client cov) l1) x1
       = (Ok v2, x2) →
       respond env (Listener_init l2) x2 = (Ok v3, x3) →
       respond env (add_event_listener (_remootio_client cov) l2) x3
       = (Raise e, x4) →
       async_added_to_hass env self w
       = (Raise e,
          mkWorld
            (<[l2 := ORemootioCoverEventListener self]>
               (<[l1 := ORemootioCoverStateChangeListener self]> (store w)))
            (calls w ++
               [Listener_init l1;
                add_state_change_listener (_remootio_client cov) l1;
                Listener_init l2;
                add_event_listener (_remootio_client cov) l2]) x4)).
Proof.
  intros Hs -> H1.
  rewrite (activation_first_subscription w self cov v1 x1 Hs H1).
  set (s1 := <[fresh (dom (store w)) := ORemootioCoverStateChangeListener self]>
               (store w)).
  set (w1 := mkWorld s1 (calls w ++ [Listener_init (fresh (dom (store w)))]) x1).
  split.
  - intros e x2 H2.
    rewrite (bind_raise _ _ _ _ _ (call_raise env _ w1 e x2 H2)).
    unfold w1. cbn [store calls ext]. by rewrite <- app_assoc.
  - intros l2 v2 v3 e x2 x3 x4 -> H2 H3 H4.
    rewrite (bind_ok _ _ _ _ _ (call_ok env _ w1 v2 x2 H2)).
    set (w2 := mkWorld (store w1) _ x2).
    assert (store w2 !! self = Some (ORemootioCover cov)) as Hs2
      by (by apply cover_stays).
    rewrite (activation_second_subscription w2 self cov v3 x3 Hs2 H3).
    set (w3 := mkWorld _ _ x3).
    rewrite (bind_raise _ _ _ _ _ (call_raise env _ w3 e x4 H4)).
    unfold w3, w2, w1. cbn [store calls ext]. by rewrite <- !app_assoc.
Qed.

(** All the ways activation of an entity can go. *)
Lemma activation_outcome (w : World X) (self : loc) (cov : RemootioCover) :
  store w !! self = Some (ORemootioCover cov) →
  let l1 := fresh (dom (store w)) in
  let s1 := <[l1 := ORemootioCoverStateChangeListener self]> (store w) in
  let l2 := fresh (dom s1) in
  let s2 := <[l2 := ORemootioCoverEventListener self]> s1 in
  (∃ (e : Exn) (w' : World X),
     async_added_to_hass env self w = (Raise e, w')
     ∧ (store w' = s1 ∨ store w' = s2))
  ∨ (∃ x : X,
       async_added_to_hass env self w
       = (Ok tt,
          mkWorld s2
            (calls w ++
               [Listener_init l1;
                add_state_change_listener (_remootio_client cov) l1;
                Listener_init l2;
                add_event_listener (_remootio_client cov) l2;
                trigger_state_update (_remootio_client cov)]) x)).
Proof.
  intros Hs l1 s1 l2 s2.
  destruct (respond env (Listener_init l1) (ext w)) as [[v1|e1] x1] eqn:H1.
  2: { left. eexists _, _. split.
       - unfold async_added_to_hass.
         rewrite (bind_ok _ _ _ _ _ (remootio_client_of_cover self cov w Hs)).
         by rewrite (bind_raise _ _ _ _ _
                       (StateChangeListener_init_raise env self w e1 x1 H1)).
       - by left. }
  rewrite (activation_first_subscription w self cov v1 x1 Hs H1).
  fold l1. fold s1.
  set (w1 := mkWorld s1 (calls w ++ [Listener_init l1]) x1).
  destruct (respond env (add_state_change_listener (_remootio_client cov) l1)
              x1) as [[v2|e2] x2] eqn:H2.
  2: { left. eexists _, _. split.
       - by rewrite (bind_raise _ _ _ _ _ (call_raise env _ w1 e2 x2 H2)).
       - by left. }
  rewrite (bind_ok _ _ _ _ _ (call_ok env _ w1 v2 x2 H2)).
  set (w2 := mkWorld (store w1) _ x2).
  assert (store w2 !! self = Some (ORemootioCover cov)) as Hs2
    by (by apply cover_stays).
  destruct (respond env (Listener_init l2) x2) as [[v3|e3] x3] eqn:H3.
  2: { left. eexists _, _. split.
       - rewrite (bind_ok _ _ _ _ _ (remootio_client_of_cover self cov w2 Hs2)).
         by rewrite (bind_raise _ _ _ _ _
                       (EventListener_init_raise env self w2 e3 x3 H3)).
       - by right. }
  rewrite (activation_second_subscription w2 self cov v3 x3 Hs2 H3).
  set (w3 := mkWorld _ _ x3).
  destruct (respond env (add_event_listener (_remootio_client cov) l2) x3)
    as [[v4|e4] x4] eqn:H4.
  2: { left. eexists _, _. split.
       - by rewrite (bind_raise _ _ _ _ _ (call_raise env _ w3 e4 x4 H4)).
       - by right. }
  rewrite (bind_ok _ _ _ _ _ (call_ok env _ w3 v4 x4 H4)).
  set (w4 := mkWorld (store w3) _ x4).
  assert (store w4 !! self = Some (ORemootioCover cov)) as Hs4
    by (by apply (cover_stays (store w2))).
  unfold async_update.
  rewrite (delegate env self cov trigger_state_update w4 Hs4).
  destruct (respond env (trigger_state_update (_remootio_client cov)) (ext w4))
    as [[v5|e5] x5] eqn:H5; cbn [fst snd].
  - right. exists x5. unfold w4, w3, w2, w1. cbn [store calls ext].
    by rewrite <- !app_assoc.
  - left. eexists _, _. split; [done | by right].
Qed.

(** The event listener on LEFT_OPEN, evaluated. *)
Lemma event_listener_fires (w : World X) (self o : loc) (cov : RemootioCover)
    (client : handle) (subject : Event) :
  store w !! self = Some (ORemootioCoverEventListener o) →
  store w !! o = Some (ORemootioCover cov) →
  type subject = LEFT_OPEN →
  let fire :=
    bus_async_fire o (lower (DOMAIN const) +:+ "_left_open")
      (<[ATTR_NAME := Entity_name env (ext w) o]>
         (<[ATTR_SERIAL_NUMBER const := _attr_unique_id cov]>
            (<[ATTR_ENTITY_ID := Entity_entity_id env (ext w) o]> ∅))) in
  RemootioCoverEventListener_execute const env self client subject w
  = (match (respond env fire (ext w)).1 with
     | Ok _ => Ok tt
     | Raise e => Raise e
     end,
     mkWorld (store w) (calls w ++ [fire]) (respond env fire (ext w)).2).
Proof.
  intros Hs Ho Ht fire. unfold RemootioCoverEventListener_execute.
  rewrite bool_decide_eq_true_2 by done. rewrite Ht.
  pose proof (owner_event_listener self o w Hs) as Hown.
  rewrite !(bind_ok _ _ _ _ _ Hown).
  unfold entity_id, entity_name.
  rewrite (bind_ok _ _ _ _ _ (eq_refl : read _ w = _)).
  rewrite (bind_ok _ _ _ _ _ Hown).
  rewrite (bind_ok _ _ _ _ _ (unique_id_cover o cov w Ho)).
  rewrite (bind_ok _ _ _ _ _ Hown).
  rewrite (bind_ok _ _ _ _ _ (eq_refl : read _ w = _)).
  subst fire. unfold mbind, M_bind, call. simpl.
  by destruct (respond env _ (ext w)) as [[v|e] x].
Qed.

(** The state-change listener, evaluated. *)
Lemma state_change_listener_writes (w : World X) (self o : loc)
    (client : handle) (subject : StateChange) :
  store w !! self = Some (ORemootioCoverStateChangeListener o) →
  calls (RemootioCoverStateChangeListener_execute env self client subject w).2
  = calls w ++ [async_write_ha_state o].
Proof.
  intros Hs. unfold RemootioCoverStateChangeListener_execute.
  rewrite (bind_ok _ _ _ _ _ (owner_state_change_listener self o w Hs)).
  unfold mbind, M_bind, call.
  by destruct (respond env _ (ext w)) as [[v|e] x].
Qed.

(** When activation returns, the two listeners it subscribed work for the
    activated entity: a state change delivered to the first makes the host
    write that entity's state, and a LEFT_OPEN event delivered to the second
    fires an event that carries that entity's unique id. *)
Theorem activated_listeners_report_for_entity (w w' : World X) (self : loc)
    (cov : RemootioCover) :
  store w !! self = Some (ORemootioCover cov) →
  async_added_to_hass env self w = (Ok tt, w') →
  ∃ l1 l2 : loc,
    l1 ≠ l2
    ∧ calls w'
      = calls w ++
          [Listener_init l1;
           add_state_change_listener (_remootio_client cov) l1;
           Listener_init l2;
           add_event_listener (_remootio_client cov) l2;
           trigger_state_update (_remootio_client cov)]
    ∧ (∀ (client : handle) (change : StateChange),
         calls (RemootioCoverStateChangeListener_execute env l1 client change
                  w').2
         = calls w' ++ [async_write_ha_state self])
    ∧ (∀ (client : handle) (event : Event),
         type event = LEFT_OPEN →
         calls (RemootioCoverEventListener_execute const env l2 client event
                  w').2
         = calls w' ++
             [bus_async_fire self (lower (DOMAIN const) +:+ "_left_open")
                (<[ATTR_NAME := Entity_name env (ext w') self]>
                   (<[ATTR_SERIAL_NUMBER const := _attr_unique_id cov]>
                      (<[ATTR_ENTITY_ID := Entity_entity_id env (ext w') self]>
                         ∅)))]).
Proof.
  intros Hs Hok.
  destruct (activation_outcome w self cov Hs)
    as [(e & w1 & Hrun & _) | (x & Hrun)];
    rewrite Hrun in Hok; [discriminate Hok |].
  injection Hok as Hw'.
  set (l1 := fresh (dom (store w))) in *.
  set (s1 := <[l1 := ORemootioCoverStateChangeListener self]> (store w)) in *.
  set (l2 := fresh (dom s1)) in *.
  assert (s1 !! l1 = Some (ORemootioCoverStateChangeListener self)) as Hl1
    by apply lookup_insert_eq.
  assert (l1 ≠ l2) as Hne.
  { intros Heq. apply (is_fresh (dom s1)). fold l2. rewrite <- Heq.
    apply elem_of_dom. by eexists. }
  assert (store w' !! l1 = Some (ORemootioCoverStateChangeListener self))
    as Hl1' by (rewrite <- Hw'; cbn [store]; by rewrite lookup_insert_ne).
  assert (store w' !! l2 = Some (ORemootioCoverEventListener self)) as Hl2'
    by (rewrite <- Hw'; cbn [store]; apply lookup_insert_eq).
  assert (store w' !! self = Some (ORemootioCover cov)) as Hs'.
  { rewrite <- Hw'. cbn [store]. apply cover_stays. by apply cover_stays. }
  exists l1, l2. split; [done |]. split; [by rewrite <- Hw' |]. split.
  - intros client change. by apply state_change_listener_writes.
  - intros client event Ht.
    by rewrite (event_listener_fires w' l2 self cov client event Hl2' Hs' Ht).
Qed.

End ActivationCases.

(** ** Listeners and their owners *)

Section Owners.

Context {X : Type} (const : Const) (env : Env X).

Lemma owner_stored_weaken (s s' : gmap loc Obj) (o : Obj) :
  s ⊆ s' → owner_stored s o = true → owner_stored s' o = true.
Proof.
  intros Hsub. unfold owner_stored. destruct (owner_of o) as [l|]; [| done].
  rewrite !bool_decide_eq_true. intros [cov Hcov].
  destruct (s !! l) as [obj|] eqn:Hl; [| done].
  rewrite (lookup_weaken s s' l obj Hl Hsub). by exists cov.
Qed.

Lemma owners_stored_insert (s : gmap loc Obj) (l : loc) (o : Obj) :
  owners_stored s → s !! l = None → owner_stored (<[l := o]> s) o = true →
  owners_stored (<[l := o]> s).
Proof.
  intros Hinv Hnew Ho. unfold owners_stored.
  apply map_Forall_insert_2; [done |].
  eapply map_Forall_impl; [exact Hinv |].
  intros i obj. apply owner_stored_weaken. by apply insert_subseteq.
Qed.

Lemma owners_stored_new_cover (s : gmap loc Obj) (cov : RemootioCover) :
  owners_stored s → owners_stored (<[fresh (dom s) := ORemootioCover cov]> s).
Proof.
  intros Hinv. apply owners_stored_insert; [done | | done].
  apply not_elem_of_dom, is_fresh.
Qed.

Lemma owners_stored_new_listener (s : gmap loc Obj) (self : loc)
    (cov : RemootioCover) (o : Obj) :
  owners_stored s → s !! self = Some (ORemootioCover cov) →
  owner_of o = Some self →
  owners_stored (<[fresh (dom s) := o]> s).
Proof.
  intros Hinv Hs Ho. apply owners_stored_insert; [done | |].
  - apply not_elem_of_dom, is_fresh.
  - unfold owner_stored. rewrite Ho. apply bool_decide_eq_true.
    rewrite (cover_stays s self cov o Hs). by eexists.
Qed.

(** A method that starts by reading the client of something that is no
    entity raises there and then. *)
Lemma activation_of_no_entity (w : World X) (self : loc) :
  store w !! self ≫= as_cover = None →
  async_added_to_hass env self w
  = (Raise (AttributeError "_remootio_client"), w).
Proof.
  intros Hs. unfold async_added_to_hass.
  rewrite (bind_raise _ _ w w (AttributeError "_remootio_client")); [done |].
  unfold remootio_client_of, getattr.
  destruct (store w !! self) as [[c| |]|]; try done.
Qed.

(** If every listener of the store is owned by an entity of the store,
    this is so again after every operation of the file, whatever it is run
    on and whatever the collaborators answer. *)
Theorem operations_keep_owners_stored (w : World X) (hass : HomeAssistant.t)
    (config_entry : ConfigEntry.t) (async_add_entities : AddEntitiesCallback)
    (self : loc) (kwargs : gmap string PyVal) (client : handle)
    (change : StateChange) (event : Event) :
  owners_stored (store w) →
  owners_stored
    (store (async_setup_entry const env hass config_entry async_add_entities
              w).2)
  ∧ owners_stored (store (async_added_to_hass env self w).2)
  ∧ owners_stored (store (async_update env self w).2)
  ∧ owners_stored (store (async_open_cover env self kwargs w).2)
  ∧ owners_stored (store (async_close_cover env self kwargs w).2)
  ∧ owners_stored
      (store (RemootioCoverStateChangeListener_execute env self client change
                w).2)
  ∧ owners_stored
      (store (RemootioCoverEventListener_execute const env self client event
                w).2).
Proof.
  intros Hinv. split; [| split].
  - destruct (setup_outcome const env w hass config_entry async_add_entities)
      as [(e & cs & x & Hrun & _)
         | (serial & class & cl & by_domain & shared & v & x & _ & _ & _ & _
            & _ & Hrun)].
    + by rewrite Hrun.
    + rewrite Hrun, RemootioCover_init_client, setup_registration.
      unfold logged. cbn [store calls ext snd].
      by apply owners_stored_new_cover.
  - destruct (store w !! self ≫= as_cover) as [cov|] eqn:Hcov.
    2: { by rewrite (activation_of_no_entity w self Hcov). }
    assert (store w !! self = Some (ORemootioCover cov)) as Hs.
    { destruct (store w !! self) as [[c| |]|]; try done.
      simpl in Hcov. by injection Hcov as ->. }
    pose proof (owners_stored_new_listener (store w) self cov
                  (ORemootioCoverStateChangeListener self) Hinv Hs eq_refl)
      as Hinv1.
    pose proof (owners_stored_new_listener _ self cov
                  (ORemootioCoverEventListener self) Hinv1
                  (cover_stays _ self cov _ Hs) eq_refl) as Hinv2.
    destruct (activation_outcome env w self cov Hs)
      as [(e & w' & Hrun & [Hst | Hst]) | (x & Hrun)]; rewrite Hrun;
      cbn [store snd]; by rewrite ?Hst.
  - assert (∀ A (m : M A), keeps_store m → owners_stored (store (m w).2))
      as Hkeep by (intros A m Hm; by rewrite Hm).
    split_and!; apply Hkeep; unfold_operations; keeps_store_steps.
Qed.


End Owners.

(** ** The name of the fired event *)

Section EventName.

Context {X : Type} (const : Const) (env : Env X).

Lemma lower_ascii_idem (c : ascii) : lower_ascii (lower_ascii c) = lower_ascii c.
Proof. destruct c as [[] [] [] [] [] [] [] []]; reflexivity. Qed.

Lemma lower_idem (s : string) : lower (lower s) = lower s.
Proof.
  induction s as [| c s IH]; [done |].
  simpl. by rewrite lower_ascii_idem, IH.
Qed.

Lemma lower_app (s t : string) : lower (s +:+ t) = lower s +:+ lower t.
Proof. induction s as [| c s IH]; [done |]. simpl. by rewrite IH. Qed.

(** The event fired on LEFT_OPEN is named in lower case, whatever the case
    of the letters of the domain: lowering its name changes nothing. *)
Theorem fired_event_name_is_lower_case (w : World X) (self o : loc)
    (cov : RemootioCover) (client : handle) (event : Event) :
  store w !! self = Some (ORemootioCoverEventListener o) →
  store w !! o = Some (ORemootioCover cov) →
  type event = LEFT_OPEN →
  ∃ (event_type : string) (event_data : gmap string PyVal),
    calls (RemootioCoverEventListener_execute const env self client event w).2
    = calls w ++ [bus_async_fire o event_type event_data]
    ∧ lower event_type = event_type
    ∧ event_type = lower (DOMAIN const +:+ "_LEFT_OPEN").
Proof.
  intros Hs Ho Ht. eexists _, _. split.
  - by rewrite (event_listener_fires const env w self o cov client event
                  Hs Ho Ht).
  - split; [| by rewrite lower_app].
    by rewrite lower_app, lower_idem.
Qed.

End EventName.

(** ** The further theorems at work on the samples *)

Lemma sample_owners_stored : owners_stored (store Sample.world).
Proof. apply (bool_decide_unpack _). vm_compute. exact I. Defined.

Lemma new_cover_reads_back_witness :
  ∃ (self : loc) (w' : World unit),
    RemootioCover_init Sample.const (Sample.quiet CLOSED) (VStr "SN0042")
      "Garage" (VStr "garage") (VClient 7) Sample.world = (Ok self, w')
    ∧ unique_id self w' = (Ok (VStr "SN0042"), w')
    ∧ remootio_client_of self w' = (Ok 7%nat, w').
Proof.
  destruct (new_cover_reads_back Sample.const (Sample.quiet CLOSED)
              Sample.world (VStr "SN0042") "Garage" (VStr "garage") 7)
    as (self & w' & Hrun & _ & _ & _ & _ & Hu & Hc & _).
  exists self, w'. split; [exact Hrun |]. split; [exact Hu | exact Hc].
Defined.

Lemma setup_needs_shared_storage_witness :
  HomeAssistant.data Cases.empty_hass !! "remootio" = None
  ∧ async_setup_entry Sample.const (Sample.quiet CLOSED) Cases.empty_hass
      Sample.config_entry 5 Sample.world
    = (Raise (KeyError "remootio"),
       mkWorld (store Sample.world) [as_dict Sample.config_entry] tt).
Proof.
  assert (HomeAssistant.data Cases.empty_hass !! "remootio" = None) as Hnone
    by (vm_compute; reflexivity).
  split; [exact Hnone |].
  apply (setup_needs_shared_storage Sample.const (Sample.quiet CLOSED)
           Sample.world Cases.empty_hass Sample.config_entry 5 VNone tt
           eq_refl).
  exact Hnone.
Defined.

Lemma setup_needs_config_values_witness :
  ConfigEntry.data Cases.no_data_entry !! "serial_number" = None
  ∧ ConfigEntry.data Cases.no_data_entry !! "device_class" = None
  ∧ (async_setup_entry Sample.const (Sample.quiet CLOSED) Sample.hass
       Cases.no_data_entry 5 Sample.world).1
    = Raise (KeyError "serial_number").
Proof.
  assert (ConfigEntry.data Cases.no_data_entry !! "serial_number" = None)
    as Hserial by (vm_compute; reflexivity).
  split; [exact Hserial |]. split; [vm_compute; reflexivity |].
  destruct (setup_needs_config_values Sample.const (Sample.quiet CLOSED)
              Sample.world Sample.hass Cases.no_data_entry 5
              {["e1" := {["remootio_client" := VClient 7]}]}
              {["remootio_client" := VClient 7]} VNone VNone tt tt
              eq_refl eq_refl eq_refl eq_refl)
    as [Hrun _].
  by rewrite (Hrun Hserial).
Defined.

Lemma setup_needs_client_witness :
  (async_setup_entry Sample.const (Sample.quiet CLOSED) Cases.none_client_hass
     Sample.config_entry 5 Sample.world).1
  = Raise (AttributeError "api_version")
  ∧ store (async_setup_entry Sample.const (Sample.quiet CLOSED)
             Cases.none_client_hass Sample.config_entry 5 Sample.world).2
    = store Sample.world.
Proof.
  assert (is_Some (ConfigEntry.data Sample.config_entry !! "serial_number"))
    as Hserial by (exists (VStr "SN0042"); vm_compute; reflexivity).
  assert (is_Some (ConfigEntry.data Sample.config_entry !! "device_class"))
    as Hclass by (exists (VStr "garage"); vm_compute; reflexivity).
  destruct (setup_needs_client Sample.const (Sample.quiet CLOSED)
              Sample.world Cases.none_client_hass Sample.config_entry 5
              {["e1" := {["remootio_client" := VNone]}]}
              {["remootio_client" := VNone]} VNone VNone tt tt
              eq_refl eq_refl eq_refl eq_refl Hserial Hclass)
    as [_ Hrun].
  rewrite Hrun; [by split | vm_compute; reflexivity].
Defined.

Lemma registered_entity_uses_shared_client_witness :
  ∃ (self : loc) (client : handle),
    last (calls (async_setup_entry Sample.const (Sample.quiet CLOSED)
                   Sample.hass Sample.config_entry 5 Sample.world).2)
    = Some (add_entities 5 [self])
    ∧ calls (async_open_cover (Sample.quiet CLOSED) self ∅
               (async_setup_entry Sample.const (Sample.quiet CLOSED)
                  Sample.hass Sample.config_entry 5 Sample.world).2).2
      = calls (async_setup_entry Sample.const (Sample.quiet CLOSED)
                 Sample.hass Sample.config_entry 5 Sample.world).2
        ++ [trigger_open client].
Proof.
  destruct (registered_entity_uses_shared_client Sample.const
              (Sample.quiet CLOSED) Sample.world Sample.hass
              Sample.config_entry 5
              (async_setup_entry Sample.const (Sample.quiet CLOSED)
                 Sample.hass Sample.config_entry 5 Sample.world).2)
    as (self & serial & client & by_domain & shared & Hlast & _ & _ & _
        & _ & _ & Hopen & _).
  { vm_compute. reflexivity. }
  exists self, client. split; [exact Hlast | apply Hopen].
Defined.

Lemma activation_calls_in_order_witness :
  store Sample.world !! 0%nat = Some (ORemootioCover Sample.cover)
  ∧ ∃ k : nat,
      calls (async_added_to_hass (Cases.no_subscription Sample.connection_lost)
               0 Sample.world).2
      = take k [Listener_init 3; add_state_change_listener 7 3;
                Listener_init 4; add_event_listener 7 4;
                trigger_state_update 7].
Proof.
  split; [exact sample_cover_stored |].
  exact (activation_calls_in_order
           (Cases.no_subscription Sample.connection_lost) Sample.world 0
           Sample.cover sample_cover_stored).
Defined.

Lemma activation_stops_at_refused_subscription_witness :
  store Sample.world !! 0%nat = Some (ORemootioCover Sample.cover)
  ∧ (async_added_to_hass (Cases.no_subscription Sample.connection_lost) 0
       Sample.world).1 = Raise Sample.connection_lost
  ∧ calls (async_added_to_hass (Cases.no_subscription Sample.connection_lost)
             0 Sample.world).2
    = [Listener_init 3; add_state_change_listener 7 3].
Proof.
  split; [exact sample_cover_stored |].
  destruct (activation_stops_at_refused_subscription
              (Cases.no_subscription Sample.connection_lost) Sample.world 0
              Sample.cover 3 VNone tt sample_cover_stored eq_refl eq_refl)
    as [Hrun _].
  rewrite (Hrun Sample.connection_lost tt eq_refl). by split.
Defined.

Lemma activated_listeners_report_for_entity_witness :
  store Sample.world !! 0%nat = Some (ORemootioCover Sample.cover)
  ∧ ∃ l1 l2 : loc,
      l1 ≠ l2
      ∧ calls (RemootioCoverStateChangeListener_execute (Sample.quiet CLOSED)
                 l1 7 (mkStateChange CLOSED OPENING)
                 (async_added_to_hass (Sample.quiet CLOSED) 0 Sample.world).2).2
        = calls (async_added_to_hass (Sample.quiet CLOSED) 0 Sample.world).2
          ++ [async_write_ha_state 0].
Proof.
  split; [exact sample_cover_stored |].
  destruct (activated_listeners_report_for_entity Sample.const
              (Sample.quiet CLOSED) Sample.world
              (async_added_to_hass (Sample.quiet CLOSED) 0 Sample.world).2
              0 Sample.cover sample_cover_stored)
    as (l1 & l2 & Hne & _ & Hwrite & _).
  { vm_compute. reflexivity. }
  exists l1, l2. split; [exact Hne | apply Hwrite].
Defined.

Lemma operations_keep_owners_stored_witness :
  owners_stored (store Sample.world)
  ∧ owners_stored
      (store (async_setup_entry Sample.const (Sample.quiet CLOSED) Sample.hass
                Sample.config_entry 5 Sample.world).2)
  ∧ owners_stored
      (store (async_added_to_hass (Sample.quiet CLOSED) 0 Sample.world).2).
Proof.
  split; [exact sample_owners_stored |].
  destruct (operations_keep_owners_stored Sample.const (Sample.quiet CLOSED)
              Sample.world Sample.hass Sample.config_entry 5 0 ∅ 7
              (mkStateChange CLOSED OPENING) (mkEvent LEFT_OPEN VNone)
              sample_owners_stored) as (Hsetup & Hactivation & _).
  split; [exact Hsetup | exact Hactivation].
Defined.


Lemma fired_event_name_is_lower_case_witness :
  DOMAIN Cases.mixed_case_const = "Remootio"
  ∧ ∃ (event_type : string) (event_data : gmap string PyVal),
      calls (RemootioCoverEventListener_execute Cases.mixed_case_const
               (Sample.quiet CLOSED) 2 7 (mkEvent LEFT_OPEN VNone)
               Sample.world).2
      = [bus_async_fire 0 event_type event_data]
      ∧ event_type = "remootio_left_open".
Proof.
  split; [reflexivity |].
  destruct (fired_event_name_is_lower_case Cases.mixed_case_const
              (Sample.quiet CLOSED) Sample.world 2 0 Sample.cover 7
              (mkEvent LEFT_OPEN VNone) sample_event_listener_stored
              sample_cover_stored eq_refl) as (t & d & Hrun & _ & Ht).
  exists t, d. split; [exact Hrun | exact Ht].
Defined.
